(** * The WARP [Searcher]: a shallow embedding of [warp/searcher.py]

    The Searcher resolves a layered configuration, picks one ranking
    backend, fills the retrieval-breadth options from the requested [k]
    and drives single-query and batched search.  The Python class is
    embedded as a record for the object, a small state-and-exception
    monad for its methods, and Section variables for the collaborators
    it calls (encoder, ranking backend, configuration loaders).  Logging
    ([print_memory_stats]) and the [tracker] arguments, which time the
    steps of a search, are left out. *)

From stdpp Require Import gmap strings list.
From Stdlib Require Import ZArith QArith Lia.

Open Scope string_scope.
Open Scope list_scope.
Open Scope Z_scope.

(** ** Python values and the Configuration *)

(** The values an option of the configuration holds.  Float literals are
    kept as exact decimals: the Searcher stores and forwards them and does
    no arithmetic on them. *)
Inductive value : Type :=
| VInt (n : Z)
| VFloat (q : Q)
| VBool (b : bool)
| VStr (s : string).

(** A Configuration maps option names to values.  Reading an option that
    is not in the map gives Python's [None]: unset. *)
Abbreviation Configuration := (gmap string value).

(** Python truthiness of an attribute that was read. *)
Definition truthy (v : option value) : bool :=
  match v with
  | None => false
  | Some (VInt n) => negb (n =? 0)
  | Some (VFloat q) => negb (Qeq_bool q 0)
  | Some (VBool b) => b
  | Some (VStr s) => negb (String.eqb s "")
  end.

(** [x or y] on attributes. *)
Definition py_or (x y : option value) : option value :=
  if truthy x then x else y.

(** Exceptions. [ValueError], [AttributeError], [TypeError] and [KeyError]
    are raised by the Searcher's own statements; [ConfigLoadError],
    [EncodingError] and [RankingError] come from the collaborators. *)
Inductive exn : Type :=
| ValueError (msg : string)
| AttributeError (msg : string)
| TypeError (msg : string)
| KeyError
| ConfigLoadError (msg : string)
| EncodingError (msg : string)
| RankingError (msg : string).

(** Modelled from the spec: [ColBERTConfig.configure] with keyword
    arguments, the setter of the configuration class, which is not among
    the sources.
    Each keyword sets (overrides) its option; an option assigned [None]
    is unset. *)
Definition setattr (cfg : Configuration) (kw : string * option value)
  : Configuration :=
  match kw.2 with
  | Some v => <[kw.1 := v]> cfg
  | None => delete kw.1 cfg
  end.

Definition Config_configure (kw_args : list (string * option value))
  (cfg : Configuration) : Configuration :=
  foldl setattr cfg kw_args.

(** Modelled from the spec: [ColBERTConfig.from_existing] over its
    sources, the merge of the configuration class, which is not among the
    sources.
    For each option the first source of the list that has it set wins; an
    option no source sets stays unset.  A source that is [None] sets
    nothing. *)
Fixpoint from_existing (sources : list (option Configuration))
  : Configuration :=
  match sources with
  | [] => ∅
  | None :: rest => from_existing rest
  | Some c :: rest => c ∪ from_existing rest
  end.

(** ** Sequences *)

(** [xs[:k]]: the first [k] items, and for a negative [k] all but the
    last [-k]. *)
Definition slice_to {A} (k : Z) (xs : list A) : list A :=
  if 0 <=? k then take (Z.to_nat k) xs
  else take (Z.to_nat (Z.of_nat (length xs) + k)) xs.

(** [list(range(1, k + 1))]. *)
Definition range1 (k : Z) : list Z :=
  Z.of_nat <$> seq 1 (Z.to_nat k).

(** [xs[i : i + 1]]. *)
Definition slice1 {A} (i : nat) (xs : list A) : list A :=
  take 1 (drop i xs).

(** [zip(a, b, c)]: stops at the shortest. *)
Fixpoint zip3 {A B C} (a : list A) (b : list B) (c : list C)
  : list (A * B * C) :=
  match a, b, c with
  | x :: a', y :: b', z :: c' => (x, y, z) :: zip3 a' b' c'
  | _, _, _ => []
  end.

(** Python dicts keep insertion order: association lists, where setting
    a key that is present replaces its value in place.  Keys are compared
    as values of Rocq, which is Python's [==] between keys that are
    integers or strings. *)
Fixpoint dict_set {K V} `{EqDecision K} (k : K) (v : V) (d : list (K * V))
  : list (K * V) :=
  match d with
  | [] => [(k, v)]
  | (k', v') :: d' =>
      if decide (k = k') then (k, v) :: d' else (k', v') :: dict_set k v d'
  end.

Definition dict_of {K V} `{EqDecision K} (items : list (K * V))
  : list (K * V) :=
  foldl (fun d kv => dict_set kv.1 kv.2 d) [] items.

Fixpoint dict_get {K V} `{EqDecision K} (k : K) (d : list (K * V))
  : option V :=
  match d with
  | [] => None
  | (k', v) :: d' => if decide (k = k') then Some v else dict_get k d'
  end.

Definition dict_keys {K V} (d : list (K * V)) : list K := d.*1.
Definition dict_values {K V} (d : list (K * V)) : list V := d.*2.

(** ** The objects *)

(** [WARPRunConfig]: the attributes the constructor reads, and the
    configuration its [colbert()] method returns. *)
Record WARPRunConfig : Type := {
  colbert : Configuration;
  t_prime : option value;
  bound : option value;
  fused_ext : option value;
}.

(** The [config] argument of the constructor, when it is not [None]. *)
Inductive config_arg : Type :=
| PlainConfig (c : Configuration)
| WarpConfig (w : WARPRunConfig).

(** The Checkpoint and the advanced scorers are handed the Searcher's
    configuration object itself, not a copy: they hold a reference to the
    [config] field of the Searcher. *)
Inductive config_ref : Type := ref_self_config.

Record Checkpoint : Type := {
  checkpoint_name : option value;
  colbert_config : config_ref;
  checkpoint_verbose : Z;
  checkpoint_warp_config : option WARPRunConfig;
  is_cuda : bool;
  query_maxlen : option value;
}.

(** The three ranking backends, each with the arguments of its
    constructor call. *)
Inductive Ranker : Type :=
| IndexScorerWARP (index : string) (config : config_ref)
    (use_gpu : bool) (load_index_with_mmap : option value)
    (t_prime bound : option value)
| ParallelIndexScorerWARP (index : string) (config : config_ref)
    (use_gpu : bool) (load_index_with_mmap : option value)
    (t_prime bound fused_decompression_merge : option value)
| IndexScorer (index : string) (use_gpu : bool)
    (load_index_with_mmap : option value).

Record Searcher : Type := {
  verbose : Z;
  index : string;
  index_config : Configuration;
  checkpoint : Checkpoint;
  checkpoint_config : Configuration;
  config : Configuration;
  collection : option value;
  warp_engine : bool;
  ranker : Ranker;
}.

Definition with_config (c : Configuration) (s : Searcher) : Searcher :=
  {| verbose := verbose s; index := index s;
     index_config := index_config s; checkpoint := checkpoint s;
     checkpoint_config := checkpoint_config s; config := c;
     collection := collection s; warp_engine := warp_engine s;
     ranker := ranker s |}.

Definition with_checkpoint (c : Checkpoint) (s : Searcher) : Searcher :=
  {| verbose := verbose s; index := index s;
     index_config := index_config s; checkpoint := c;
     checkpoint_config := checkpoint_config s; config := config s;
     collection := collection s; warp_engine := warp_engine s;
     ranker := ranker s |}.

Definition with_query_maxlen (v : option value) (c : Checkpoint)
  : Checkpoint :=
  {| checkpoint_name := checkpoint_name c;
     colbert_config := colbert_config c;
     checkpoint_verbose := checkpoint_verbose c;
     checkpoint_warp_config := checkpoint_warp_config c;
     is_cuda := is_cuda c; query_maxlen := v |}.

Definition cuda (c : Checkpoint) : Checkpoint :=
  {| checkpoint_name := checkpoint_name c;
     colbert_config := colbert_config c;
     checkpoint_verbose := checkpoint_verbose c;
     checkpoint_warp_config := checkpoint_warp_config c;
     is_cuda := true; query_maxlen := query_maxlen c |}.

(** ** The monad of the methods

    A method runs on the Searcher object and on the counter of the
    progress bar that [tqdm] advances; it returns a value or raises.
    What a method changed before it raised stays changed.  [bar] lists
    the values the counter has taken; what [tqdm] draws on the terminal,
    and when, depends on the clock and is not modelled. *)
Record World : Type := {
  self : Searcher;
  bar : list nat;
}.

Definition M (A : Type) : Type := World -> World * (exn + A).

Definition ret {A} (a : A) : M A := fun w => (w, inr a).
Definition raise {A} (e : exn) : M A := fun w => (w, inl e).
Definition bind {A B} (m : M A) (f : A -> M B) : M B :=
  fun w =>
    match m w with
    | (w', inr a) => f a w'
    | (w', inl e) => (w', inl e)
    end.
Definition lift {A} (r : exn + A) : M A := fun w => (w, r).
Definition get_self : M Searcher := fun w => (w, inr (self w)).
Definition modify_self (f : Searcher -> Searcher) : M unit :=
  fun w => ({| self := f (self w); bar := bar w |}, inr tt).
Definition tick (n : nat) : M unit :=
  fun w => ({| self := self w; bar := bar w ++ [n] |}, inr tt).

Declare Scope method_scope.
Delimit Scope method_scope with M.
Notation "'let*' x ':=' m 'in' f" := (bind m (fun x => f))
  (at level 10, x binder, m at level 100, f at level 200) : method_scope.
Notation "'do' m 'then' f" := (bind m (fun _ => f))
  (at level 10, m at level 100, f at level 200) : method_scope.

(** The same for the constructor, which has no object yet. *)
Definition bind_exn {A B} (r : exn + A) (f : A -> exn + B) : exn + B :=
  match r with
  | inr a => f a
  | inl e => inl e
  end.
Notation "'try' x ':=' r 'in' f" := (bind_exn r (fun x => f))
  (at level 10, x binder, r at level 100, f at level 200).

(** [x > 0] on an attribute that was read; [None] and strings do not
    compare with an integer. *)
Definition gt0 (v : option value) : exn + bool :=
  match v with
  | Some (VInt n) => inr (0 <? n)
  | Some (VFloat q) => inr (negb (Qle_bool q 0))
  | Some (VBool b) => inr b
  | Some (VStr _) => inl (TypeError "'>' not supported between 'str' and 'int'")
  | None => inl (TypeError "'>' not supported between 'NoneType' and 'int'")
  end.

(** [warp_config.name], where [warp_config] may be [None]. *)
Definition getattr (warp_config : option WARPRunConfig) (name : string)
  (field : WARPRunConfig -> option value) : exn + option value :=
  match warp_config with
  | Some w => inr (field w)
  | None =>
      inl (AttributeError
             ("'NoneType' object has no attribute '" ++ name ++ "'")%string)
  end.

(** [Checkpoint(name, colbert_config=..., verbose=..., warp_config=...)]:
    on the CPU, its query tokenizer configured by [encode] before each
    use. *)
Definition Checkpoint_new (name : option value) (cfg : config_ref)
  (verbose : Z) (warp_config : option WARPRunConfig) : Checkpoint :=
  {| checkpoint_name := name; colbert_config := cfg;
     checkpoint_verbose := verbose; checkpoint_warp_config := warp_config;
     is_cuda := false; query_maxlen := None |}.

(** [warp.data.Queries]: an ordered mapping from query identifier to
    query text, and what its [provenance()] returns. *)
Record Queries : Type := {
  Queries_data : list (value * string);
  Queries_provenance : option value;
}.

(** [TextQueries = Union[str, list[str], dict[int, str], Queries]]. *)
Inductive TextQueries : Type :=
| QPath (path : string)
| QList (texts : list string)
| QDict (d : list (Z * string))
| QQueries (q : Queries).

(** The [text] argument of [encode]: a string or a list of strings. *)
Inductive text_arg : Type :=
| Str (s : string)
| StrList (l : list string).

(** [warp.infra.provenance.Provenance], with the four fields that
    [_search_all_Q] assigns. *)
Record Provenance : Type := {
  provenance_source : string;
  provenance_queries : option value;
  provenance_config : Configuration;
  provenance_k : Z;
}.

(** Scores are the backend's floats, passed through untouched. *)
Abbreviation score := Q.

(** One row of a ranked result: document id, rank, score. *)
Definition row : Type := Z * Z * score.

(** [warp.data.Ranking(data=..., provenance=...)]. *)
Record Ranking : Type := {
  Ranking_data : list (value * list row);
  Ranking_provenance : Provenance;
}.

#[global] Instance Q_eq_dec : EqDecision Q.
Proof. solve_decision. Defined.
#[global] Instance value_eq_dec : EqDecision value.
Proof. solve_decision. Defined.

(** ** The Searcher *)

Section Searcher.

(** One encoded query; a tensor of encoded queries is a list of them. *)
Context {embedding : Type}.

(** The collaborators. *)

(** [Run().config], the process-level defaults. *)
Variable run_config : Configuration.
(** The [index_root_] property of a configuration. *)
Variable index_root_ : Configuration -> string.
(** [os.path.join]. *)
Variable path_join : string -> string -> string.
(** [ColBERTConfig.load_from_index] and [load_from_checkpoint]. *)
Variable load_from_index : string -> exn + Configuration.
Variable load_from_checkpoint : option value -> exn + Configuration.
(** [Collection.cast]. *)
Variable Collection_cast : option value -> option value.
(** [torch.get_num_threads()]. *)
Variable get_num_threads : Z.
(** [Queries.cast]. *)
Variable Queries_cast : TextQueries -> Queries.
(** [checkpoint.queryFromText(queries, bsize=, to_cpu=,
    full_length_search=)]. *)
Variable queryFromText :
  Checkpoint -> list string -> option Z -> bool -> bool ->
  exn + list embedding.
(** [ranker.rank(config, Q, k=, filter_fn=, pids=)]; the baseline scorer
    is called without [k]. *)
Variable rank :
  Ranker -> Configuration -> list embedding -> option Z ->
  option (Z -> bool) -> option (list Z) -> exn + (list Z * list score).

(** [Searcher.__init__]. *)
Definition __init__ (index : string) (checkpoint collection : option value)
  (config : option config_arg) (index_root : option string) (verbose : Z)
  (warp_engine : bool) : exn + Searcher :=
  let warp_config :=
    match config with Some (WarpConfig w) => Some w | _ => None end in
  let config :=
    match config with
    | Some (WarpConfig w) => Some (colbert w)
    | Some (PlainConfig c) => Some c
    | None => None
    end in
  let initial_config := from_existing [config; Some run_config] in
  let default_index_root := index_root_ initial_config in
  let index_root :=
    match index_root with
    | Some r => if String.eqb r "" then default_index_root else r
    | None => default_index_root
    end in
  let self_index := path_join index_root index in
  try self_index_config := load_from_index self_index in
  let self_checkpoint :=
    py_or checkpoint (self_index_config !! "checkpoint") in
  try self_checkpoint_config := load_from_checkpoint self_checkpoint in
  let self_config :=
    from_existing [Some self_checkpoint_config; Some self_index_config;
                   Some initial_config] in
  let self_collection :=
    Collection_cast (py_or collection (self_config !! "collection")) in
  let self_config :=
    Config_configure [("checkpoint", self_checkpoint);
                      ("collection", self_collection)] self_config in
  let self_checkpoint :=
    Checkpoint_new self_checkpoint ref_self_config verbose warp_config in
  try use_gpu := gt0 (self_config !! "total_visible_gpus") in
  let self_checkpoint :=
    if use_gpu then cuda self_checkpoint else self_checkpoint in
  let load_index_with_mmap := self_config !! "load_index_with_mmap" in
  if truthy load_index_with_mmap && use_gpu then
    inl (ValueError "Memory-mapped index can only be used with CPU!")
  else
  try self_ranker :=
    (if warp_engine then
       if get_num_threads =? 1 then
         try t := getattr warp_config "t_prime" t_prime in
         try b := getattr warp_config "bound" bound in
         inr (IndexScorerWARP self_index ref_self_config use_gpu
                load_index_with_mmap t b)
       else
         try t := getattr warp_config "t_prime" t_prime in
         try b := getattr warp_config "bound" bound in
         try f := getattr warp_config "fused_ext" fused_ext in
         inr (ParallelIndexScorerWARP self_index ref_self_config use_gpu
                load_index_with_mmap t b f)
     else
       inr (IndexScorer self_index use_gpu load_index_with_mmap)) in
  inr {| verbose := verbose; index := self_index;
         index_config := self_index_config;
         checkpoint := self_checkpoint;
         checkpoint_config := self_checkpoint_config;
         config := self_config; collection := self_collection;
         warp_engine := warp_engine; ranker := self_ranker |}.

Open Scope method_scope.

(** [Searcher.configure]. *)
Definition configure (kw_args : list (string * option value)) : M unit :=
  modify_self (fun s => with_config (Config_configure kw_args (config s)) s).

(** [if self.config.<name> is None: body]. *)
Definition if_None (name : string) (body : M unit) : M unit :=
  let* s := get_self in
  match config s !! name with
  | None => body
  | Some _ => ret tt
  end.

(** [Searcher.encode]. *)
Definition encode (text : text_arg) (full_length_search : bool)
  : M (list embedding) :=
  let queries := match text with StrList l => l | Str t => [t] end in
  let bsize :=
    if 128 <? Z.of_nat (length queries) then Some 128 else None in
  do modify_self (fun s =>
       with_checkpoint
         (with_query_maxlen (config s !! "query_maxlen") (checkpoint s)) s)
  then
  let* s := get_self in
  lift (queryFromText (checkpoint s) queries bsize true full_length_search).

(** [Searcher.dense_search]. *)
Definition dense_search (Q : list embedding) (k : Z)
  (filter_fn : option (Z -> bool)) (pids : option (list Z))
  : M (list Z * list Z * list score) :=
  do (if k <=? 10 then
        do if_None "ncells" (configure [("ncells", Some (VInt 1))]) then
        do if_None "centroid_score_threshold"
             (configure [("centroid_score_threshold", Some (VFloat 0.5%Q))])
        then
        if_None "ndocs" (configure [("ndocs", Some (VInt 256))])
      else if k <=? 100 then
        do if_None "ncells" (configure [("ncells", Some (VInt 2))]) then
        do if_None "centroid_score_threshold"
             (configure [("centroid_score_threshold", Some (VFloat 0.45%Q))])
        then
        if_None "ndocs" (configure [("ndocs", Some (VInt 1024))])
      else
        do if_None "ncells" (configure [("ncells", Some (VInt 4))]) then
        do if_None "centroid_score_threshold"
             (configure [("centroid_score_threshold", Some (VFloat 0.4%Q))])
        then
        if_None "ndocs"
          (configure [("ndocs", Some (VInt (Z.max (k * 4) 4096)))]))
  then
  let* s := get_self in
  let* '(pids, scores) :=
    (if warp_engine s then
       lift (rank (ranker s) (config s) Q (Some k) filter_fn pids)
     else
       lift (rank (ranker s) (config s) Q None filter_fn pids)) in
  ret (slice_to k pids, range1 k, slice_to k scores).

(** [Searcher.search]. *)
Definition search (text : string) (k : Z) (filter_fn : option (Z -> bool))
  (full_length_search : bool) (pids : option (list Z))
  : M (list Z * list Z * list score) :=
  let* Q := encode (Str text) full_length_search in
  dense_search Q k filter_fn pids.

(** [for x in tqdm(items, disable=...)]: the list comprehension of
    [_search_all_Q].  The counter of the bar is advanced when the loop
    asks for the next item, after the body of the previous one returned;
    a disabled bar counts nothing. *)
Fixpoint tqdm_comprehension {A B} (disable : bool) (n : nat)
  (items : list A) (body : A -> M B) : M (list B) :=
  match items with
  | [] => ret []
  | x :: rest =>
      let* y := body x in
      do (if disable then ret tt else tick (S n)) then
      let* ys := tqdm_comprehension disable (S n) rest body in
      ret (y :: ys)
  end.

(** [enumerate]. *)
Definition enumerate {A} (l : list A) : list (nat * A) :=
  zip (seq 0 (length l)) l.

(** [Searcher._search_all_Q]. *)
Definition _search_all_Q (queries : Queries) (Q : list embedding) (k : Z)
  (filter_fn : option (Z -> bool))
  (qid_to_pids : option (list (value * option (list Z))))
  (show_progress : bool) : M Ranking :=
  let qids := dict_keys (Queries_data queries) in
  let qid_to_pids :=
    match qid_to_pids with
    | None => dict_of ((fun qid => (qid, None)) <$> qids)
    | Some d => d
    end in
  let* all_scored_pids :=
    tqdm_comprehension (negb show_progress) 0 (enumerate qids)
      (fun '(query_idx, qid) =>
         let* pids :=
           match dict_get qid qid_to_pids with
           | Some pids => ret pids
           | None => raise KeyError
           end in
         let* '(pids, ranks, scores) :=
           dense_search (slice1 query_idx Q) k filter_fn pids in
         ret (zip3 pids ranks scores)) in
  let data :=
    dict_of (zip (dict_keys (Queries_data queries)) all_scored_pids) in
  let* s := get_self in
  let provenance :=
    {| provenance_source := "Searcher::search_all";
       provenance_queries := Queries_provenance queries;
       provenance_config := config s;
       provenance_k := k |} in
  ret {| Ranking_data := data; Ranking_provenance := provenance |}.

(** [Searcher.search_all]. *)
Definition search_all (queries : TextQueries) (k : Z)
  (filter_fn : option (Z -> bool)) (full_length_search : bool)
  (qid_to_pids : option (list (value * option (list Z))))
  (show_progress : bool) : M Ranking :=
  let queries := Queries_cast queries in
  let queries_ := dict_values (Queries_data queries) in
  let* Q := encode (StrList queries_) full_length_search in
  _search_all_Q queries Q k filter_fn qid_to_pids show_progress.

Close Scope method_scope.

(** ** Names for what the methods compute

    The theorems speak of intermediate values of the methods; the
    definitions below name them, and the lemmas [__init___resolved] and
    [dense_search_run] tie them to the methods. *)

(** [warp_config] and [config] after the [isinstance] test. *)
Definition warp_config_of (config : option config_arg)
  : option WARPRunConfig :=
  match config with Some (WarpConfig w) => Some w | _ => None end.

Definition caller_config (config : option config_arg)
  : option Configuration :=
  match config with
  | Some (WarpConfig w) => Some (colbert w)
  | Some (PlainConfig c) => Some c
  | None => None
  end.

(** [self.index]. *)
Definition index_path (index : string) (config : option config_arg)
  (index_root : option string) : string :=
  let default_index_root :=
    index_root_ (from_existing [caller_config config; Some run_config]) in
  path_join
    (match index_root with
     | Some r => if String.eqb r "" then default_index_root else r
     | None => default_index_root
     end) index.

(** [self.config] as the two calls of [from_existing] build it, given the
    configurations loaded from the index and from the checkpoint. *)
Definition merged_config (config : option config_arg)
  (index_config checkpoint_config : Configuration) : Configuration :=
  from_existing
    [Some checkpoint_config; Some index_config;
     Some (from_existing [caller_config config; Some run_config])].

(** [self.config] after the constructor's [configure] call. *)
Definition resolved_config (checkpoint collection : option value)
  (config : option config_arg)
  (index_config checkpoint_config : Configuration) : Configuration :=
  let merged := merged_config config index_config checkpoint_config in
  Config_configure
    [("checkpoint", py_or checkpoint (index_config !! "checkpoint"));
     ("collection",
      Collection_cast (py_or collection (merged !! "collection")))]
    merged.

(** The Searcher the constructor returns, given the configurations
    loaded from the index and the checkpoint, the value of [use_gpu] and
    the backend it chose. *)
Definition built (index : string) (checkpoint collection : option value)
  (config : option config_arg) (index_root : option string) (verbose : Z)
  (index_config checkpoint_config : Configuration) (use_gpu : bool)
  (r : Ranker) (warp_engine : bool) : Searcher :=
  let name := py_or checkpoint (index_config !! "checkpoint") in
  let ck :=
    Checkpoint_new name ref_self_config verbose (warp_config_of config) in
  let merged := merged_config config index_config checkpoint_config in
  {| verbose := verbose; index := index_path index config index_root;
     index_config := index_config;
     checkpoint := if use_gpu then cuda ck else ck;
     checkpoint_config := checkpoint_config;
     config :=
       resolved_config checkpoint collection config index_config
         checkpoint_config;
     collection := Collection_cast (py_or collection (merged !! "collection"));
     warp_engine := warp_engine; ranker := r |}.

(** What the three guarded [configure] calls of one branch of
    [dense_search] leave in the configuration. *)
Definition fill_if_unset (name : string) (v : value) (cfg : Configuration)
  : Configuration :=
  match cfg !! name with
  | None => <[name := v]> cfg
  | Some _ => cfg
  end.

Definition adaptive_fill (k : Z) (cfg : Configuration) : Configuration :=
  if k <=? 10 then
    fill_if_unset "ndocs" (VInt 256)
      (fill_if_unset "centroid_score_threshold" (VFloat 0.5)
         (fill_if_unset "ncells" (VInt 1) cfg))
  else if k <=? 100 then
    fill_if_unset "ndocs" (VInt 1024)
      (fill_if_unset "centroid_score_threshold" (VFloat 0.45)
         (fill_if_unset "ncells" (VInt 2) cfg))
  else
    fill_if_unset "ndocs" (VInt (Z.max (k * 4) 4096))
      (fill_if_unset "centroid_score_threshold" (VFloat 0.4)
         (fill_if_unset "ncells" (VInt 4) cfg)).

(** The three retrieval-breadth options of a configuration. *)
Definition breadth (cfg : Configuration)
  : option value * option value * option value :=
  (cfg !! "ncells", cfg !! "centroid_score_threshold", cfg !! "ndocs").

(** The last four lines of [dense_search], run on the Searcher [s] with
    the configuration [cfg] handed to the backend. *)
Definition rank_and_trim (s : Searcher) (cfg : Configuration)
  (Q : list embedding) (k : Z) (filter_fn : option (Z -> bool))
  (pids : option (list Z)) : exn + (list Z * list Z * list score) :=
  match
    rank (ranker s) cfg Q (if warp_engine s then Some k else None)
      filter_fn pids
  with
  | inr (pids, scores) => inr (slice_to k pids, range1 k, slice_to k scores)
  | inl e => inl e
  end.

(** A sequence of [dense_search] calls on one Searcher; the results are
    dropped, the object is kept. *)
Definition dense_search_calls
  (calls : list (list embedding * Z * option (Z -> bool) * option (list Z)))
  (w : World) : World :=
  foldl (fun w '(Q, k, filter_fn, pids) =>
           (dense_search Q k filter_fn pids w).1) w calls.

End Searcher.

(** Two runs agree when, started on the same Searcher, they leave the
    same Searcher and return the same result; the progress bars may
    differ. *)
Definition agree {A} (m1 m2 : M A) : Prop :=
  forall w1 w2, self w1 = self w2 ->
    self (m1 w1).1 = self (m2 w2).1 /\ (m1 w1).2 = (m2 w2).2.

(** The backend of a Searcher and the flag that says which kind it is. *)
Definition same_backend (s s' : Searcher) : Prop :=
  ranker s' = ranker s /\ warp_engine s' = warp_engine s.

(** A method that leaves the backend as it found it. *)
Definition keeps_backend {A} (m : M A) : Prop :=
  forall w, same_backend (self w) (self (m w).1).

(** The keys on which the dicts of this file are Python's: integers and
    strings, which are equal in Python when they are the same value.
    ([True], [1] and [1.0] are one key for Python.) *)
Definition plain_key (v : value) : bool :=
  match v with
  | VInt _ | VStr _ => true
  | VFloat _ | VBool _ => false
  end.

(** The candidate pools [_search_all_Q] works with: the caller's, or
    [{qid: None for qid in qids}]. *)
Definition pools_of (queries : Queries)
  (qid_to_pids : option (list (value * option (list Z))))
  : list (value * option (list Z)) :=
  match qid_to_pids with
  | None =>
      dict_of ((fun qid => (qid, None)) <$> dict_keys (Queries_data queries))
  | Some d => d
  end.

(** The element of the list comprehension of [_search_all_Q], for the
    query [qid] at position [query_idx]. *)
Definition scored_pids {embedding : Type}
  (rank :
     Ranker -> Configuration -> list embedding -> option Z ->
     option (Z -> bool) -> option (list Z) -> exn + (list Z * list score))
  (Q : list embedding) (k : Z) (filter_fn : option (Z -> bool))
  (qid_to_pids : list (value * option (list Z))) (item : nat * value)
  : M (list row) :=
  let '(query_idx, qid) := item in
  (let* pids :=
     match dict_get qid qid_to_pids with
     | Some pids => ret pids
     | None => raise KeyError
     end in
   let* '(pids, ranks, scores) :=
     dense_search rank (slice1 query_idx Q) k filter_fn pids in
   ret (zip3 pids ranks scores))%M.

(** The Provenance [_search_all_Q] writes. *)
Definition provenance_of (queries : Queries) (cfg : Configuration) (k : Z)
  : Provenance :=
  {| provenance_source := "Searcher::search_all";
     provenance_queries := Queries_provenance queries;
     provenance_config := cfg;
     provenance_k := k |}.

(** ** A test bench

    Concrete collaborators and objects, on which the theorems are run. *)
Module Bench.

(** A backend that finds two documents whatever it is asked. *)
Definition rank_two (r : Ranker) (cfg : Configuration) (Q : list unit)
  (k : option Z) (filter_fn : option (Z -> bool)) (pids : option (list Z))
  : exn + (list Z * list score) :=
  inr ([10; 20], [0.9%Q; 0.8%Q]).

(** An encoder that returns one (empty) embedding per query. *)
Definition encoder (c : Checkpoint) (queries : list string)
  (bsize : option Z) (to_cpu full_length_search : bool)
  : exn + list unit :=
  inr ((fun _ => tt) <$> queries).

(** A cast that takes [Queries] and dicts, and gives the empty batch for
    anything else. *)
Definition cast (q : TextQueries) : Queries :=
  match q with
  | QQueries q => q
  | QDict d =>
      {| Queries_data := prod_map VInt id <$> d;
         Queries_provenance := None |}
  | _ => {| Queries_data := []; Queries_provenance := None |}
  end.

(** A baseline Searcher with nothing configured. *)
Definition searcher : Searcher :=
  {| verbose := 3; index := "indexes/nfcorpus"; index_config := ∅;
     checkpoint := Checkpoint_new None ref_self_config 3 None;
     checkpoint_config := ∅; config := ∅; collection := None;
     warp_engine := false;
     ranker := IndexScorer "indexes/nfcorpus" false None |}.

Definition world : World := {| self := searcher; bar := [] |}.

(** The batch of the specification's example. *)
Definition cats_dogs : Queries :=
  {| Queries_data := [(VStr "a", "cats"); (VStr "b", "dogs")];
     Queries_provenance := Some (VStr "queries.tsv") |}.

(** The world around the constructor: an index root, and loaders that
    find an empty configuration. *)
Definition index_root_ (c : Configuration) : string := "indexes".
Definition path_join (a b : string) : string :=
  (a ++ "/" ++ b)%string.
Definition load_from_index (path : string) : exn + Configuration :=
  inr ∅.
Definition load_from_checkpoint (name : option value)
  : exn + Configuration := inr ∅.
Definition Collection_cast (c : option value) : option value := c.

Definition cpu : Configuration := {[ "total_visible_gpus" := VInt 0 ]}.
Definition gpu_mmap : Configuration :=
  <["load_index_with_mmap" := VBool true]>
    {[ "total_visible_gpus" := VInt 1 ]}.

Definition warp : WARPRunConfig :=
  {| colbert := ∅; t_prime := None; bound := Some (VInt 128);
     fused_ext := Some (VBool true) |}.

(** The constructor in that world, for given process defaults and
    number of threads. *)
Definition init (defaults : Configuration) (threads : Z)
  (config : option config_arg) (warp_engine : bool) : exn + Searcher :=
  __init__ defaults index_root_ path_join load_from_index
    load_from_checkpoint Collection_cast threads "nfcorpus" None None
    config None 3 warp_engine.

(** An encoder that is down. *)
Definition encoder_down (c : Checkpoint) (queries : list string)
  (bsize : option Z) (to_cpu full_length_search : bool)
  : exn + list unit :=
  inl (EncodingError "encoder is down").

(** A backend that finds five documents. *)
Definition rank_five (r : Ranker) (cfg : Configuration) (Q : list unit)
  (k : option Z) (filter_fn : option (Z -> bool)) (pids : option (list Z))
  : exn + (list Z * list score) :=
  inr ([11; 12; 13; 14; 15], [0.9%Q; 0.8%Q; 0.7%Q; 0.6%Q; 0.5%Q]).

(** A Searcher whose three breadth options are set. *)
Definition tuned : World :=
  {| self :=
       with_config
         (<["ndocs" := VInt 256]>
            (<["centroid_score_threshold" := VFloat 0.5]>
               {[ "ncells" := VInt 1 ]})) searcher;
     bar := [] |}.

(** A loader that finds no index. *)
Definition index_missing (path : string) : exn + Configuration :=
  inl (ConfigLoadError "no index").

(** An encoder whose embedding of a text is the text, and a backend that
    cannot rank "dogs". *)
Definition encoder_texts (c : Checkpoint) (queries : list string)
  (bsize : option Z) (to_cpu full_length_search : bool)
  : exn + list string :=
  inr queries.

Definition rank_no_dogs (r : Ranker) (cfg : Configuration)
  (Q : list string) (k : option Z) (filter_fn : option (Z -> bool))
  (pids : option (list Z)) : exn + (list Z * list score) :=
  if decide (Q = ["dogs"]) then inl (RankingError "no dogs")
  else inr ([10; 20], [0.9%Q; 0.8%Q]).

(** A checkpoint whose configuration sets [ndocs]. *)
Definition checkpoint_with_ndocs (name : option value)
  : exn + Configuration :=
  inr {[ "ndocs" := VInt 7 ]}.

(** Candidate pools that know the query "a" only. *)
Definition pools_a : list (value * option (list Z)) := [(VStr "a", None)].

End Bench.

(** ** Dicts *)

Section Dicts.
Context {K V : Type} `{EqDecision K}.
Implicit Types (k : K) (v : V) (d items : list (K * V)).

Lemma dict_set_fresh k v d : k ∉ d.*1 -> dict_set k v d = d ++ [(k, v)].
Proof.
  induction d as [|[k' v'] d IH]; simpl; intros Hk; [done|].
  apply not_elem_of_cons in Hk as [Hne Hk].
  rewrite decide_False by done. f_equal. by apply IH.
Qed.

Lemma dict_set_keys k v d k' :
  k' ∈ (dict_set k v d).*1 <-> k' = k \/ k' ∈ d.*1.
Proof.
  induction d as [|[k0 v0] d IH]; simpl.
  - rewrite elem_of_cons, elem_of_nil. tauto.
  - destruct (decide (k = k0)) as [->|Hne]; simpl;
      rewrite !elem_of_cons, ?IH; tauto.
Qed.

Lemma foldl_dict_set acc items :
  NoDup (acc.*1 ++ items.*1) ->
  foldl (fun d kv => dict_set kv.1 kv.2 d) acc items = acc ++ items.
Proof.
  revert acc. induction items as [|[k v] items IH]; intros acc Hnd; simpl.
  - by rewrite app_nil_r.
  - simpl in Hnd. rewrite dict_set_fresh.
    + rewrite IH; [by rewrite <- app_assoc|].
      rewrite fmap_app. simpl. by rewrite <- app_assoc.
    + apply NoDup_app in Hnd as (_ & Hd & _).
      intros Hin. apply (Hd k Hin). left.
Qed.

(** Building a dict from items with distinct keys keeps the items and
    their order. *)
Lemma dict_of_NoDup items : NoDup items.*1 -> dict_of items = items.
Proof. intros Hnd. unfold dict_of. by rewrite foldl_dict_set. Qed.

Lemma foldl_dict_set_keys acc items k :
  k ∈ acc.*1 \/ k ∈ items.*1 ->
  k ∈ (foldl (fun d kv => dict_set kv.1 kv.2 d) acc items).*1.
Proof.
  revert acc. induction items as [|[k0 v0] items IH]; intros acc Hk; simpl.
  - destruct Hk as [Hk|Hk]; [done|]. by apply elem_of_nil in Hk.
  - apply IH. rewrite dict_set_keys. simpl in Hk.
    rewrite elem_of_cons in Hk. tauto.
Qed.

Lemma dict_get_is_Some k d : k ∈ d.*1 -> is_Some (dict_get k d).
Proof.
  induction d as [|[k0 v0] d IH]; simpl; intros Hk.
  - by apply elem_of_nil in Hk.
  - destruct (decide (k = k0)); [by eexists|].
    apply IH. apply elem_of_cons in Hk as [Hk|Hk]; done.
Qed.
End Dicts.

Section Properties.
Context {embedding : Type}.
Variable Queries_cast : TextQueries -> Queries.
Variable queryFromText :
  Checkpoint -> list string -> option Z -> bool -> bool ->
  exn + list embedding.
Variable rank :
  Ranker -> Configuration -> list embedding -> option Z ->
  option (Z -> bool) -> option (list Z) -> exn + (list Z * list score).

Lemma with_config_same s : with_config (config s) s = s.
Proof. by destruct s. Qed.

Lemma if_None_run name v (w : World) :
  if_None name (configure [(name, Some v)]) w =
  ({| self := with_config (fill_if_unset name v (config (self w))) (self w);
      bar := bar w |}, inr tt).
Proof.
  unfold if_None, bind, get_self, configure, modify_self, fill_if_unset, ret.
  destruct w as [s b]; simpl.
  destruct (config s !! name); simpl; [by rewrite with_config_same|done].
Qed.

Lemma with_config_twice c1 c2 s :
  with_config c2 (with_config c1 s) = with_config c2 s.
Proof. done. Qed.

Lemma fill3_run n1 v1 n2 v2 n3 v3 (w : World) :
  bind (if_None n1 (configure [(n1, Some v1)])) (fun _ =>
    bind (if_None n2 (configure [(n2, Some v2)])) (fun _ =>
      if_None n3 (configure [(n3, Some v3)]))) w =
  ({| self := with_config
                (fill_if_unset n3 v3
                   (fill_if_unset n2 v2
                      (fill_if_unset n1 v1 (config (self w))))) (self w);
      bar := bar w |}, inr tt).
Proof.
  unfold bind. rewrite if_None_run; simpl.
  rewrite if_None_run; simpl. by rewrite if_None_run.
Qed.

Lemma dense_search_run Q k filter_fn pids (w : World) :
  dense_search rank Q k filter_fn pids w =
  ({| self := with_config (adaptive_fill k (config (self w))) (self w);
      bar := bar w |},
   rank_and_trim rank (self w) (adaptive_fill k (config (self w)))
     Q k filter_fn pids).
Proof.
  unfold dense_search, adaptive_fill, rank_and_trim.
  unfold bind at 1.
  destruct (k <=? 10); [|destruct (k <=? 100)].
  all: rewrite fill3_run; unfold bind, get_self, lift, ret; simpl.
  all: destruct (warp_engine (self w)); simpl.
  all: match goal with |- context [rank ?a ?b ?c ?d ?e ?f] =>
         destruct (rank a b c d e f) as [?|[? ?]] end; done.
Qed.

(** *** The adaptive fill *)

Lemma fill_if_unset_set name v cfg n x :
  cfg !! n = Some x -> fill_if_unset name v cfg !! n = Some x.
Proof.
  intros Hn. unfold fill_if_unset.
  destruct (cfg !! name) eqn:Hname; [done|].
  rewrite lookup_insert_ne; [done|]. intros ->. congruence.
Qed.

Lemma fill_if_unset_other name v cfg n :
  n <> name -> fill_if_unset name v cfg !! n = cfg !! n.
Proof.
  intros Hne. unfold fill_if_unset.
  destruct (cfg !! name); [done|]. by rewrite lookup_insert_ne.
Qed.

Lemma fill_if_unset_unset name v cfg :
  cfg !! name = None -> fill_if_unset name v cfg !! name = Some v.
Proof.
  intros Hn. unfold fill_if_unset. rewrite Hn. apply lookup_insert_eq.
Qed.

Lemma fill_if_unset_id name v cfg :
  is_Some (cfg !! name) -> fill_if_unset name v cfg = cfg.
Proof. intros [x Hx]. unfold fill_if_unset. by rewrite Hx. Qed.

Lemma adaptive_fill_set k cfg n x :
  cfg !! n = Some x -> adaptive_fill k cfg !! n = Some x.
Proof.
  intros Hn. unfold adaptive_fill.
  destruct (k <=? 10); [|destruct (k <=? 100)];
    by do 3 apply fill_if_unset_set.
Qed.

Lemma adaptive_fill_other k cfg n :
  n <> "ncells" -> n <> "centroid_score_threshold" -> n <> "ndocs" ->
  adaptive_fill k cfg !! n = cfg !! n.
Proof.
  intros H1 H2 H3. unfold adaptive_fill.
  destruct (k <=? 10); [|destruct (k <=? 100)];
    by rewrite !fill_if_unset_other.
Qed.

Lemma fill3_breadth v1 v2 v3 cfg :
  breadth cfg = (None, None, None) ->
  breadth
    (fill_if_unset "ndocs" v3
       (fill_if_unset "centroid_score_threshold" v2
          (fill_if_unset "ncells" v1 cfg))) =
  (Some v1, Some v2, Some v3).
Proof.
  unfold breadth. intros [= H1 H2 H3]. f_equal; [f_equal|].
  - rewrite 2!fill_if_unset_other by done. by apply fill_if_unset_unset.
  - rewrite fill_if_unset_other by done. apply fill_if_unset_unset.
    by rewrite fill_if_unset_other.
  - apply fill_if_unset_unset. by rewrite 2!fill_if_unset_other.
Qed.

Lemma adaptive_fill_unset k cfg :
  breadth cfg = (None, None, None) ->
  breadth (adaptive_fill k cfg) =
    if k <=? 10 then
      (Some (VInt 1), Some (VFloat 0.5), Some (VInt 256))
    else if k <=? 100 then
      (Some (VInt 2), Some (VFloat 0.45), Some (VInt 1024))
    else
      (Some (VInt 4), Some (VFloat 0.4), Some (VInt (Z.max (k * 4) 4096))).
Proof.
  intros H. unfold adaptive_fill.
  destruct (k <=? 10); [|destruct (k <=? 100)]; by apply fill3_breadth.
Qed.

Lemma adaptive_fill_filled k cfg :
  is_Some (cfg !! "ncells") ->
  is_Some (cfg !! "centroid_score_threshold") ->
  is_Some (cfg !! "ndocs") ->
  adaptive_fill k cfg = cfg.
Proof.
  intros H1 H2 H3. unfold adaptive_fill.
  destruct (k <=? 10); [|destruct (k <=? 100)].
  all: rewrite (fill_if_unset_id "ncells") by done.
  all: rewrite (fill_if_unset_id "centroid_score_threshold") by done.
  all: by rewrite (fill_if_unset_id "ndocs").
Qed.

Lemma adaptive_fill_fills k cfg :
  is_Some (adaptive_fill k cfg !! "ncells") /\
  is_Some (adaptive_fill k cfg !! "centroid_score_threshold") /\
  is_Some (adaptive_fill k cfg !! "ndocs").
Proof.
  assert (Hfill : forall name v c, is_Some (fill_if_unset name v c !! name)).
  { intros name v c. destruct (c !! name) as [x|] eqn:Hx.
    - exists x. by apply fill_if_unset_set.
    - exists v. by apply fill_if_unset_unset. }
  assert (Hkeep : forall name v c n,
             is_Some (c !! n) -> is_Some (fill_if_unset name v c !! n)).
  { intros name v c n [x Hx]. exists x. by apply fill_if_unset_set. }
  unfold adaptive_fill.
  destruct (k <=? 10); [|destruct (k <=? 100)]; auto 10.
Qed.

Lemma adaptive_fill_sticky k1 k2 cfg :
  adaptive_fill k2 (adaptive_fill k1 cfg) = adaptive_fill k1 cfg.
Proof.
  destruct (adaptive_fill_fills k1 cfg) as (H1 & H2 & H3).
  by apply adaptive_fill_filled.
Qed.

(** *** Claims about [dense_search] *)

(** C4 (adaptive bucket values).  When the three retrieval-breadth
    options are unset at a [dense_search] call with requested count [k],
    the call sets ncells=1, centroid_score_threshold=0.5, ndocs=256 if
    k <= 10; 2, 0.45, 1024 if 10 < k <= 100; and 4, 0.4,
    max(4k, 4096) if k > 100; the backend's [rank] is invoked with the
    configuration so filled, and no other option changes. *)
Theorem adaptive_bucket_values Q k filter_fn pids (w : World) :
  breadth (config (self w)) = (None, None, None) ->
  exists cfg' : Configuration,
    dense_search rank Q k filter_fn pids w =
      ({| self := with_config cfg' (self w); bar := bar w |},
       rank_and_trim rank (self w) cfg' Q k filter_fn pids) /\
    (k <= 10 ->
     breadth cfg' = (Some (VInt 1), Some (VFloat 0.5), Some (VInt 256))) /\
    (10 < k <= 100 ->
     breadth cfg' =
       (Some (VInt 2), Some (VFloat 0.45), Some (VInt 1024))) /\
    (100 < k ->
     breadth cfg' =
       (Some (VInt 4), Some (VFloat 0.4),
        Some (VInt (Z.max (4 * k) 4096)))) /\
    (forall name,
       name <> "ncells" -> name <> "centroid_score_threshold" ->
       name <> "ndocs" -> cfg' !! name = config (self w) !! name).
Proof.
  intros Hunset. exists (adaptive_fill k (config (self w))).
  split; [apply dense_search_run|].
  pose proof (adaptive_fill_unset k _ Hunset) as Hfill.
  repeat split.
  - intros Hk. rewrite Hfill.
    by assert ((k <=? 10) = true) as -> by lia.
  - intros Hk. rewrite Hfill.
    assert ((k <=? 10) = false) as -> by lia.
    by assert ((k <=? 100) = true) as -> by lia.
  - intros Hk. rewrite Hfill.
    assert ((k <=? 10) = false) as -> by lia.
    assert ((k <=? 100) = false) as -> by lia.
    by rewrite (Z.mul_comm 4 k).
  - intros name H1 H2 H3. by apply adaptive_fill_other.
Qed.

(** C1 (sticky adaptive defaults).  On a Searcher whose three
    retrieval-breadth options are unset, [dense_search] with k=5 and
    then with k=500 runs both backend calls with ncells=1,
    centroid_score_threshold=0.5, ndocs=256, and leaves these values in
    the configuration: the values of the k=500 bucket never appear.
    For any two calls, whatever their [k], the second leaves the
    configuration as the first left it. *)
Theorem sticky_adaptive_defaults Q1 Q2 f1 f2 p1 p2 (w : World) :
  breadth (config (self w)) = (None, None, None) ->
  let r1 := dense_search rank Q1 5 f1 p1 w in
  let r2 := dense_search rank Q2 500 f2 p2 r1.1 in
  (exists cfg' : Configuration,
     breadth cfg' = (Some (VInt 1), Some (VFloat 0.5), Some (VInt 256)) /\
     config (self r1.1) = cfg' /\
     r1.2 = rank_and_trim rank (self w) cfg' Q1 5 f1 p1 /\
     config (self r2.1) = cfg' /\
     r2.2 = rank_and_trim rank (self w) cfg' Q2 500 f2 p2) /\
  (forall k1 k2 Qa Qb fa fb pa pb (w0 : World),
     let ra := dense_search rank Qa k1 fa pa w0 in
     config (self (dense_search rank Qb k2 fb pb ra.1).1) =
     config (self ra.1)).
Proof.
  intros Hunset r1 r2. split.
  - exists (adaptive_fill 5 (config (self w))).
    subst r2 r1. rewrite !dense_search_run. simpl.
    rewrite adaptive_fill_sticky.
    split; [by rewrite (adaptive_fill_unset 5 _ Hunset)|done].
  - intros. subst ra. rewrite !dense_search_run. simpl.
    apply adaptive_fill_sticky.
Qed.

Lemma dense_search_calls_set calls (w : World) name v :
  config (self w) !! name = Some v ->
  config (self (dense_search_calls rank calls w)) !! name = Some v.
Proof.
  revert w. induction calls as [|[[[Q k] f] p] calls IH]; intros w Hw.
  - done.
  - unfold dense_search_calls. simpl. apply IH.
    rewrite dense_search_run. simpl. by apply adaptive_fill_set.
Qed.

(** C5 (explicit values are never overwritten).  After
    [configure(ndocs=2000)], every sequence of [dense_search] calls,
    with any [k], leaves ndocs at 2000.  In general a [dense_search]
    call keeps every option that is set, changes no option other than
    the three breadth options, and changes nothing else of the
    Searcher. *)
Theorem explicit_values_survive :
  (forall calls (w : World),
     config (self (dense_search_calls rank calls
                     (configure [("ndocs", Some (VInt 2000))] w).1))
       !! "ndocs" = Some (VInt 2000)) /\
  (forall calls (w : World) name v,
     config (self w) !! name = Some v ->
     config (self (dense_search_calls rank calls w)) !! name = Some v) /\
  (forall Q k filter_fn pids (w : World) name,
     name <> "ncells" -> name <> "centroid_score_threshold" ->
     name <> "ndocs" ->
     config (self (dense_search rank Q k filter_fn pids w).1) !! name =
     config (self w) !! name) /\
  (forall Q k filter_fn pids (w : World),
     with_config (config (self w))
       (self (dense_search rank Q k filter_fn pids w).1) = self w).
Proof.
  repeat split.
  - intros calls w. apply dense_search_calls_set.
    simpl. apply lookup_insert_eq.
  - intros calls w name v. apply dense_search_calls_set.
  - intros Q k f p w name H1 H2 H3. rewrite dense_search_run. simpl.
    by apply adaptive_fill_other.
  - intros Q k f p w. rewrite dense_search_run. simpl.
    by destruct (self w).
Qed.

(** What [dense_search] returns when the backend returns [pids] and
    [scores]: the first [k] of each, and the ranks 1 to [k] whatever
    the backend returned. *)
Lemma dense_search_returns Q k filter_fn pids (w : World) ids scores :
  rank (ranker (self w)) (adaptive_fill k (config (self w))) Q
    (if warp_engine (self w) then Some k else None) filter_fn pids =
    inr (ids, scores) ->
  (dense_search rank Q k filter_fn pids w).2 =
    inr (slice_to k ids, range1 k, slice_to k scores).
Proof.
  intros Hrank. rewrite dense_search_run. simpl.
  unfold rank_and_trim. by rewrite Hrank.
Qed.

Lemma length_slice_to {A} (k : Z) (xs : list A) :
  0 <= k -> length (slice_to k xs) = Nat.min (Z.to_nat k) (length xs).
Proof.
  intros Hk. unfold slice_to.
  assert ((0 <=? k) = true) as -> by lia. apply length_take.
Qed.

Lemma length_range1 (k : Z) : length (range1 k) = Z.to_nat k.
Proof. unfold range1. by rewrite length_fmap, length_seq. Qed.


(** *** Methods that keep the backend *)

Lemma same_backend_refl s : same_backend s s.
Proof. done. Qed.

Lemma same_backend_trans s1 s2 s3 :
  same_backend s1 s2 -> same_backend s2 s3 -> same_backend s1 s3.
Proof. unfold same_backend. intros [-> ->] [-> ->]. done. Qed.

Lemma keeps_ret {A} (a : A) : keeps_backend (ret a).
Proof. intros w. apply same_backend_refl. Qed.

Lemma keeps_raise {A} e : keeps_backend (@raise A e).
Proof. intros w. apply same_backend_refl. Qed.

Lemma keeps_lift {A} (r : exn + A) : keeps_backend (lift r).
Proof. intros w. apply same_backend_refl. Qed.

Lemma keeps_get_self : keeps_backend get_self.
Proof. intros w. apply same_backend_refl. Qed.

Lemma keeps_tick n : keeps_backend (tick n).
Proof. intros w. apply same_backend_refl. Qed.

Lemma keeps_modify_self f :
  (forall s, same_backend s (f s)) -> keeps_backend (modify_self f).
Proof. intros Hf w. apply Hf. Qed.

Lemma keeps_bind {A B} (m : M A) (f : A -> M B) :
  keeps_backend m -> (forall a, keeps_backend (f a)) ->
  keeps_backend (bind m f).
Proof.
  intros Hm Hf w. unfold bind. specialize (Hm w).
  destruct (m w) as [w' [e|a]]; simpl in *; [done|].
  eapply same_backend_trans; [exact Hm | apply Hf].
Qed.

Lemma keeps_configure kw_args : keeps_backend (configure kw_args).
Proof. apply keeps_modify_self. done. Qed.

Lemma keeps_encode text full_length_search :
  keeps_backend (encode queryFromText text full_length_search).
Proof.
  unfold encode. apply keeps_bind; [by apply keeps_modify_self|].
  intros _. apply keeps_bind; [apply keeps_get_self|].
  intros s. apply keeps_lift.
Qed.

Lemma keeps_dense_search Q k filter_fn pids :
  keeps_backend (dense_search rank Q k filter_fn pids).
Proof. intros w. by rewrite dense_search_run. Qed.

Lemma keeps_search text k filter_fn full_length_search pids :
  keeps_backend
    (search queryFromText rank text k filter_fn full_length_search pids).
Proof.
  unfold search. apply keeps_bind; [apply keeps_encode|].
  intros Q. apply keeps_dense_search.
Qed.

Lemma keeps_tqdm_comprehension {A B} disable n (items : list A)
  (body : A -> M B) :
  (forall x, keeps_backend (body x)) ->
  keeps_backend (tqdm_comprehension disable n items body).
Proof.
  intros Hbody. revert n.
  induction items as [|x items IH]; intros n; simpl.
  - apply keeps_ret.
  - apply keeps_bind; [apply Hbody|]. intros y.
    apply keeps_bind;
      [destruct disable; [apply keeps_ret | apply keeps_tick]|].
    intros _. apply keeps_bind; [apply IH|]. intros ys. apply keeps_ret.
Qed.

Lemma keeps__search_all_Q queries Q k filter_fn qid_to_pids show_progress :
  keeps_backend
    (_search_all_Q rank queries Q k filter_fn qid_to_pids show_progress).
Proof.
  unfold _search_all_Q. apply keeps_bind.
  - apply keeps_tqdm_comprehension. intros [query_idx qid].
    apply keeps_bind.
    + destruct (dict_get qid _); [apply keeps_ret | apply keeps_raise].
    + intros pids. apply keeps_bind; [apply keeps_dense_search|].
      intros [[ids ranks] scores]. apply keeps_ret.
  - intros rows. apply keeps_bind; [apply keeps_get_self|].
    intros s. apply keeps_ret.
Qed.

Lemma keeps_search_all queries k filter_fn full_length_search qid_to_pids
  show_progress :
  keeps_backend
    (search_all Queries_cast queryFromText rank queries k filter_fn
       full_length_search qid_to_pids show_progress).
Proof.
  unfold search_all. apply keeps_bind; [apply keeps_encode|].
  intros Q. apply keeps__search_all_Q.
Qed.

(** *** Runs that agree up to the progress bar *)

Lemma agree_ret {A} (a : A) : agree (ret a) (ret a).
Proof. by intros w1 w2 Hw. Qed.

Lemma agree_raise {A} e : agree (@raise A e) (raise e).
Proof. by intros w1 w2 Hw. Qed.

Lemma agree_lift {A} (r : exn + A) : agree (lift r) (lift r).
Proof. by intros w1 w2 Hw. Qed.

Lemma agree_get_self : agree get_self get_self.
Proof. intros w1 w2 Hw. simpl. by rewrite Hw. Qed.

Lemma agree_modify_self f : agree (modify_self f) (modify_self f).
Proof. intros w1 w2 Hw. simpl. by rewrite Hw. Qed.

Lemma agree_tick_ret n : agree (tick n) (ret tt).
Proof. by intros w1 w2 Hw. Qed.

Lemma agree_bind {A B} (m1 m2 : M A) (f1 f2 : A -> M B) :
  agree m1 m2 -> (forall a, agree (f1 a) (f2 a)) ->
  agree (bind m1 f1) (bind m2 f2).
Proof.
  intros Hm Hf w1 w2 Hw. unfold bind.
  destruct (Hm w1 w2 Hw) as [Hself Hres].
  destruct (m1 w1) as [w1' r1], (m2 w2) as [w2' r2]; simpl in *.
  subst r2. destruct r1 as [e|a]; [done|]. by apply Hf.
Qed.

Lemma agree_encode text full_length_search :
  agree (encode queryFromText text full_length_search)
    (encode queryFromText text full_length_search).
Proof.
  unfold encode. apply agree_bind; [apply agree_modify_self|].
  intros _. apply agree_bind; [apply agree_get_self|].
  intros s. apply agree_lift.
Qed.

Lemma agree_dense_search Q k filter_fn pids :
  agree (dense_search rank Q k filter_fn pids)
    (dense_search rank Q k filter_fn pids).
Proof. intros w1 w2 Hw. rewrite !dense_search_run. simpl. by rewrite Hw. Qed.

Lemma agree_tqdm_comprehension {A B} d1 d2 n1 n2 (items : list A)
  (body : A -> M B) :
  (forall x, agree (body x) (body x)) ->
  agree (tqdm_comprehension d1 n1 items body)
    (tqdm_comprehension d2 n2 items body).
Proof.
  intros Hbody. revert n1 n2.
  induction items as [|x items IH]; intros n1 n2; simpl.
  - apply agree_ret.
  - apply agree_bind; [apply Hbody|]. intros y.
    apply agree_bind.
    + intros w1 w2 Hw. by destruct d1, d2.
    + intros _. apply agree_bind; [apply IH|]. intros ys. apply agree_ret.
Qed.

Lemma agree__search_all_Q queries Q k filter_fn qid_to_pids p1 p2 :
  agree (_search_all_Q rank queries Q k filter_fn qid_to_pids p1)
    (_search_all_Q rank queries Q k filter_fn qid_to_pids p2).
Proof.
  unfold _search_all_Q. apply agree_bind.
  - apply agree_tqdm_comprehension. intros [query_idx qid].
    apply agree_bind.
    + destruct (dict_get qid _); [apply agree_ret | apply agree_raise].
    + intros pids. apply agree_bind; [apply agree_dense_search|].
      intros [[ids ranks] scores]. apply agree_ret.
  - intros rows. apply agree_bind; [apply agree_get_self|].
    intros s. apply agree_ret.
Qed.

(** C9 (the progress signal does not interfere).  Two runs of
    [search_all] on the same Searcher, queries, [k], filter and candidate
    pools, one with [show_progress] and one without, return the same
    Ranking (or raise the same exception) and leave the same Searcher;
    only what is written to the progress bar differs. *)
Theorem progress_noninterference queries k filter_fn full_length_search
  qid_to_pids (w : World) :
  let shown :=
    search_all Queries_cast queryFromText rank queries k filter_fn
      full_length_search qid_to_pids true w in
  let silent :=
    search_all Queries_cast queryFromText rank queries k filter_fn
      full_length_search qid_to_pids false w in
  self shown.1 = self silent.1 /\ shown.2 = silent.2.
Proof.
  apply (agree_bind _ _ _ _ (agree_encode _ _)); [|done].
  intros Q. apply agree__search_all_Q.
Qed.

(** *** The batch *)

Lemma tqdm_comprehension_length {A B} disable n (items : list A)
  (body : A -> M B) (w w' : World) ys :
  tqdm_comprehension disable n items body w = (w', inr ys) ->
  length ys = length items.
Proof.
  revert n w ys. induction items as [|x items IH]; intros n w ys; simpl.
  - by intros [= _ <-].
  - unfold bind at 1. destruct (body x w) as [w1 [e|y]]; [done|].
    unfold bind at 1.
    destruct ((if disable then ret tt else tick (S n)) w1)
      as [w2 [e|[]]]; [done|].
    unfold bind at 1.
    destruct (tqdm_comprehension disable (S n) items body w2)
      as [w3 [e|ys']] eqn:Hrest; [done|].
    intros [= <- <-]. simpl. f_equal. by eapply IH.
Qed.

Lemma tqdm_comprehension_returns {A B} disable n (items : list A)
  (body : A -> M B) (w : World) :
  (forall x w0, x ∈ items -> exists w1 y, body x w0 = (w1, inr y)) ->
  exists w' ys, tqdm_comprehension disable n items body w = (w', inr ys).
Proof.
  revert n w. induction items as [|x items IH]; intros n w Hbody; simpl.
  - by eexists _, _.
  - destruct (Hbody x w) as (w1 & y & Hy); [left|].
    unfold bind at 1. rewrite Hy.
    unfold bind at 1.
    assert (exists w2, (if disable then ret tt else tick (S n)) w1
                       = (w2, inr tt)) as [w2 ->]
      by (destruct disable; by eexists).
    destruct (IH (S n) w2) as (w3 & ys & Hys).
    { intros x' w0 Hx'. apply Hbody. by right. }
    unfold bind. rewrite Hys. by eexists _, _.
Qed.

(** [_search_all_Q] after its comprehension. *)
Lemma _search_all_Q_run queries Q k filter_fn qid_to_pids show_progress
  (w : World) :
  exists body,
    _search_all_Q rank queries Q k filter_fn qid_to_pids show_progress w =
    match
      tqdm_comprehension (negb show_progress) 0
        (enumerate (dict_keys (Queries_data queries))) body w
    with
    | (w', inr rows) =>
        (w',
         inr {| Ranking_data :=
                  dict_of (zip (dict_keys (Queries_data queries)) rows);
                Ranking_provenance :=
                  {| provenance_source := "Searcher::search_all";
                     provenance_queries := Queries_provenance queries;
                     provenance_config := config (self w');
                     provenance_k := k |} |})
    | (w', inl e) => (w', inl e)
    end.
Proof.
  eexists. unfold _search_all_Q. unfold bind at 1. reflexivity.
Qed.

Lemma length_enumerate {A} (l : list A) : length (enumerate l) = length l.
Proof. unfold enumerate. rewrite length_zip, length_seq. lia. Qed.

Lemma elem_of_enumerate {A} (l : list A) i x :
  (i, x) ∈ enumerate l -> x ∈ l.
Proof. unfold enumerate. intros Hin. by apply elem_of_zip_r in Hin. Qed.

(** C8 (the Ranking of a batch).  When [search_all] returns, the keys of
    the Ranking are the query identifiers of the batch, in the order of
    the batch; the Ranking carries one Provenance, whose [k] is the
    requested [k] and whose [queries] is the provenance of the batch.
    It returns whenever the encoder and the backend do and every query
    has its entry among the candidate pools. *)
Theorem search_all_ranking queries k filter_fn full_length_search
  qid_to_pids show_progress (w : World) :
  let batch := Queries_cast queries in
  let run :=
    search_all Queries_cast queryFromText rank queries k filter_fn
      full_length_search qid_to_pids show_progress w in
  NoDup (dict_keys (Queries_data batch)) ->
  (forall w' ranking,
     run = (w', inr ranking) ->
     dict_keys (Ranking_data ranking) = dict_keys (Queries_data batch) /\
     provenance_k (Ranking_provenance ranking) = k /\
     provenance_queries (Ranking_provenance ranking) =
       Queries_provenance batch /\
     provenance_source (Ranking_provenance ranking) =
       "Searcher::search_all" /\
     provenance_config (Ranking_provenance ranking) = config (self w')) /\
  ((forall c texts bsize to_cpu fl,
      exists Q, queryFromText c texts bsize to_cpu fl = inr Q) ->
   (forall r c Q k' f p, exists found, rank r c Q k' f p = inr found) ->
   (forall d, qid_to_pids = Some d ->
      forall qid, qid ∈ dict_keys (Queries_data batch) ->
                  qid ∈ dict_keys d) ->
   exists w' ranking, run = (w', inr ranking)).
Proof.
  intros batch run Hnodup. subst run. unfold search_all. fold batch. split.
  - intros w' ranking. unfold bind at 1.
    destruct (encode _ _ _ w) as [w1 [e|Q]]; [done|].
    destruct (_search_all_Q_run batch Q k filter_fn qid_to_pids
                show_progress w1) as [body ->].
    destruct (tqdm_comprehension _ _ _ body w1) as [w2 [e|rows]] eqn:Hrows;
      [done|].
    intros [= <- <-]. simpl. split; [|done].
    apply tqdm_comprehension_length in Hrows.
    rewrite length_enumerate in Hrows.
    unfold dict_keys in *. rewrite dict_of_NoDup.
    + apply fst_zip. lia.
    + rewrite fst_zip by lia. done.
  - intros Hencoder Hrank Hpools. unfold bind at 1.
    unfold encode, bind at 1 2, modify_self, get_self, lift. simpl.
    match goal with |- context [queryFromText ?c ?t ?b ?p ?f] =>
      destruct (Hencoder c t b p f) as [Q ->] end.
    unfold _search_all_Q. unfold bind at 1.
    match goal with |- context [tqdm_comprehension ?d ?n ?l ?b ?w0] =>
      destruct (tqdm_comprehension_returns d n l b w0) as (w2 & rows & ->)
    end.
    + intros [query_idx qid] w0 Hin. apply elem_of_enumerate in Hin.
      assert (is_Some (dict_get qid
                match qid_to_pids with
                | Some d => d
                | None =>
                    dict_of ((fun qid => (qid, None)) <$>
                             dict_keys (Queries_data batch))
                end)) as [pids Hpids].
      { apply dict_get_is_Some. destruct qid_to_pids as [d|].
        - by apply (Hpools d).
        - apply foldl_dict_set_keys. right.
          rewrite <- list_fmap_compose. simpl.
          by rewrite list_fmap_id. }
      rewrite Hpids. unfold bind, ret.
      rewrite dense_search_run. unfold rank_and_trim.
      match goal with |- context [rank ?a ?b ?c ?d ?e ?f] =>
        destruct (Hrank a b c d e f) as [[ids scores] ->] end.
      by eexists _, _.
    + by eexists _, _.
Qed.

End Properties.

(** ** The constructor *)

Section Construction.

Context {embedding : Type}.
Variable Queries_cast : TextQueries -> Queries.
Variable queryFromText :
  Checkpoint -> list string -> option Z -> bool -> bool ->
  exn + list embedding.
Variable rank :
  Ranker -> Configuration -> list embedding -> option Z ->
  option (Z -> bool) -> option (list Z) -> exn + (list Z * list score).

Variable run_config : Configuration.
Variable index_root_ : Configuration -> string.
Variable path_join : string -> string -> string.
Variable load_from_index : string -> exn + Configuration.
Variable load_from_checkpoint : option value -> exn + Configuration.
Variable Collection_cast : option value -> option value.
Variable get_num_threads : Z.

(** The arguments of the constructor call. *)
Variables (index_arg : string) (checkpoint_arg collection_arg : option value)
  (conf_arg : option config_arg) (index_root_arg : option string)
  (verbose_arg : Z).

Local Abbreviation init :=
  (__init__ run_config index_root_ path_join load_from_index
     load_from_checkpoint Collection_cast get_num_threads index_arg
     checkpoint_arg collection_arg conf_arg index_root_arg verbose_arg).
Local Abbreviation path :=
  (index_path run_config index_root_ path_join index_arg conf_arg
     index_root_arg).

(** Well-formed configuration sources: the index and the checkpoint
    have a configuration that loads. *)
Variables idx ckpt : Configuration.
Hypothesis index_loads : load_from_index path = inr idx.
Hypothesis checkpoint_loads :
  load_from_checkpoint (py_or checkpoint_arg (idx !! "checkpoint")) =
  inr ckpt.

Local Abbreviation merged := (merged_config run_config conf_arg idx ckpt).
Local Abbreviation cfg :=
  (resolved_config run_config Collection_cast checkpoint_arg
     collection_arg conf_arg idx ckpt).

(** The constructor up to the choice of the backend. *)
Lemma __init___resolved warp_engine :
  init warp_engine =
  try use_gpu := gt0 (cfg !! "total_visible_gpus") in
  if truthy (cfg !! "load_index_with_mmap") && use_gpu then
    inl (ValueError "Memory-mapped index can only be used with CPU!")
  else
    try r :=
      (if warp_engine then
         if get_num_threads =? 1 then
           try t := getattr (warp_config_of conf_arg) "t_prime" t_prime in
           try b := getattr (warp_config_of conf_arg) "bound" bound in
           inr (IndexScorerWARP path ref_self_config use_gpu
                  (cfg !! "load_index_with_mmap") t b)
         else
           try t := getattr (warp_config_of conf_arg) "t_prime" t_prime in
           try b := getattr (warp_config_of conf_arg) "bound" bound in
           try f :=
             getattr (warp_config_of conf_arg) "fused_ext" fused_ext in
           inr (ParallelIndexScorerWARP path ref_self_config use_gpu
                  (cfg !! "load_index_with_mmap") t b f)
       else
         inr (IndexScorer path use_gpu (cfg !! "load_index_with_mmap"))) in
    inr (built run_config index_root_ path_join Collection_cast index_arg
           checkpoint_arg collection_arg conf_arg index_root_arg
           verbose_arg idx ckpt use_gpu r warp_engine).
Proof.
  unfold __init__. fold (caller_config conf_arg).
  fold (warp_config_of conf_arg).
  change (path_join _ index_arg) with path.
  rewrite index_loads. cbn [bind_exn].
  rewrite checkpoint_loads. cbn [bind_exn].
  reflexivity.
Qed.

(** What [from_existing] leaves for one option: the value of the first
    source that sets it. *)
Lemma from_existing_cons_lookup c sources (o : string) :
  from_existing (Some c :: sources) !! o =
  match c !! o with
  | Some v => Some v
  | None => from_existing sources !! o
  end.
Proof.
  simpl. rewrite lookup_union. by destruct (c !! o), (from_existing _ !! o).
Qed.

Section Resolved.

(** ... and a GPU count that compares with 0. *)
Variable use_gpu : bool.
Hypothesis gpus_counted : gt0 (cfg !! "total_visible_gpus") = inr use_gpu.

Local Abbreviation mmap := (cfg !! "load_index_with_mmap").
Local Abbreviation searcher_with :=
  (built run_config index_root_ path_join Collection_cast index_arg
     checkpoint_arg collection_arg conf_arg index_root_arg verbose_arg
     idx ckpt use_gpu).

Lemma __init___mmap_gpu warp_engine :
  truthy mmap && use_gpu = true ->
  init warp_engine =
  inl (ValueError "Memory-mapped index can only be used with CPU!").
Proof.
  intros Hboth. rewrite __init___resolved, gpus_counted. cbn [bind_exn].
  by rewrite Hboth.
Qed.

Lemma __init___baseline :
  truthy mmap && use_gpu = false ->
  init false = inr (searcher_with (IndexScorer path use_gpu mmap) false).
Proof.
  intros Hok. rewrite __init___resolved, gpus_counted. cbn [bind_exn].
  by rewrite Hok.
Qed.

Lemma __init___warp w :
  truthy mmap && use_gpu = false ->
  conf_arg = Some (WarpConfig w) ->
  init true =
  inr (searcher_with
         (if get_num_threads =? 1 then
            IndexScorerWARP path ref_self_config use_gpu mmap
              (t_prime w) (bound w)
          else
            ParallelIndexScorerWARP path ref_self_config use_gpu mmap
              (t_prime w) (bound w) (fused_ext w)) true).
Proof.
  intros Hok Hw. rewrite __init___resolved, gpus_counted. cbn [bind_exn].
  rewrite Hok. rewrite Hw. simpl. by destruct (get_num_threads =? 1).
Qed.

Lemma __init___no_warp_config :
  truthy mmap && use_gpu = false ->
  warp_config_of conf_arg = None ->
  init true =
  inl (AttributeError "'NoneType' object has no attribute 't_prime'").
Proof.
  intros Hok Hnone. rewrite __init___resolved, gpus_counted.
  cbn [bind_exn]. rewrite Hok, Hnone. simpl.
  by destruct (get_num_threads =? 1).
Qed.

(** C2, amended.  Given configurations that load and a GPU count,
    construction fails with the [ValueError] of the memory-map check
    (the specification's InvalidConfigurationError) if and only if
    the resolved configuration asks for GPU compute and for a
    memory-mapped index.  For every other combination construction
    succeeds, provided that a request for the advanced engine comes
    with a [WARPRunConfig]. *)
Theorem construction_outcome warp_engine :
  ((exists msg, init warp_engine = inl (ValueError msg)) <->
   truthy mmap && use_gpu = true) /\
  (truthy mmap && use_gpu = true ->
   init warp_engine =
   inl (ValueError "Memory-mapped index can only be used with CPU!")) /\
  (truthy mmap && use_gpu = false ->
   (warp_engine = true -> exists w, conf_arg = Some (WarpConfig w)) ->
   exists s, init warp_engine = inr s /\ config s = cfg).
Proof.
  split; [|split].
  - split.
    + intros [msg Hfail].
      destruct (truthy mmap && use_gpu) eqn:Hboth; [done|].
      destruct warp_engine.
      * destruct (warp_config_of conf_arg) as [w|] eqn:Hw.
        -- assert (conf_arg = Some (WarpConfig w)) as Hcfg
             by (by destruct conf_arg as [[]|]; simplify_eq/=).
           by rewrite (__init___warp w Hboth Hcfg) in Hfail.
        -- by rewrite (__init___no_warp_config Hboth Hw) in Hfail.
      * by rewrite (__init___baseline Hboth) in Hfail.
    + intros Hboth. eexists. by apply __init___mmap_gpu.
  - apply __init___mmap_gpu.
  - intros Hok Hwarp. destruct warp_engine.
    + destruct (Hwarp eq_refl) as [w Hw].
      eexists. split; [by apply (__init___warp w)|done].
    + eexists. split; [by apply __init___baseline|done].
Qed.

(** C10, amended.  With [warp_engine=True] and a [config] that is not
    a [WARPRunConfig], [warp_config] stays [None]; when the
    configurations load and the memory-map check passes, construction
    fails with the [AttributeError] of reading [t_prime] from [None],
    which is not the [ValueError] of the memory-map check. *)
Theorem warp_engine_needs_warp_config :
  (forall w, conf_arg <> Some (WarpConfig w)) ->
  truthy mmap && use_gpu = false ->
  warp_config_of conf_arg = None /\
  init true =
    inl (AttributeError "'NoneType' object has no attribute 't_prime'") /\
  (forall msg, init true <> inl (ValueError msg)).
Proof.
  intros Hplain Hok.
  assert (warp_config_of conf_arg = None) as Hnone.
  { destruct conf_arg as [[c|w]|]; [done| |done].
    by destruct (Hplain w). }
  split; [done|].
  rewrite (__init___no_warp_config Hok Hnone). by split.
Qed.

(** C7 (engine selection).  A Searcher that the constructor returns has
    one backend: the baseline [IndexScorer], which gets neither [t_prime]
    nor [bound] nor the fused-decompression flag, when the advanced
    engine is not requested; with the advanced engine requested, the
    multi-worker [ParallelIndexScorerWARP] (with the configured fused
    decompression-merge flag) when more than one thread is available and
    the single-worker [IndexScorerWARP] when exactly one is.  The
    constructor does return in each of these cases when the memory-map
    check passes and the advanced engine comes with a [WARPRunConfig].
    No method of the Searcher changes the backend afterwards. *)
Theorem engine_selection :
  (forall requested s,
     init requested = inr s ->
     warp_engine s = requested /\
     (requested = false -> ranker s = IndexScorer path use_gpu mmap) /\
     (requested = true -> 1 < get_num_threads ->
      exists w,
        conf_arg = Some (WarpConfig w) /\
        ranker s =
          ParallelIndexScorerWARP path ref_self_config use_gpu mmap
            (t_prime w) (bound w) (fused_ext w)) /\
     (requested = true -> get_num_threads = 1 ->
      exists w,
        conf_arg = Some (WarpConfig w) /\
        ranker s =
          IndexScorerWARP path ref_self_config use_gpu mmap
            (t_prime w) (bound w))) /\
  (truthy mmap && use_gpu = false ->
   (exists s, init false = inr s) /\
   (forall w, conf_arg = Some (WarpConfig w) -> exists s, init true = inr s)) /\
  (forall (w : World),
     (forall kw_args, same_backend (self w) (self (configure kw_args w).1)) /\
     (forall text fl,
        same_backend (self w) (self (encode queryFromText text fl w).1)) /\
     (forall Q k f pids,
        same_backend (self w) (self (dense_search rank Q k f pids w).1)) /\
     (forall text k f fl pids,
        same_backend (self w)
          (self (search queryFromText rank text k f fl pids w).1)) /\
     (forall queries k f fl pools show_progress,
        same_backend (self w)
          (self (search_all Queries_cast queryFromText rank queries k f
                   fl pools show_progress w).1))).
Proof.
  split; [|split].
  - intros requested s Hinit.
    destruct (truthy mmap && use_gpu) eqn:Hok;
      [by rewrite (__init___mmap_gpu _ Hok) in Hinit|].
    destruct requested.
    + destruct (warp_config_of conf_arg) as [w|] eqn:Hw;
        [|by rewrite (__init___no_warp_config Hok Hw) in Hinit].
      assert (conf_arg = Some (WarpConfig w)) as Hcfg
        by (by destruct conf_arg as [[]|]; simplify_eq/=).
      rewrite (__init___warp w Hok Hcfg) in Hinit.
      injection Hinit as <-. simpl.
      split; [done|]. split; [done|]. split.
      * intros _ Hthreads. exists w. split; [done|].
        by assert ((get_num_threads =? 1) = false) as -> by lia.
      * intros _ Hthreads. exists w. split; [done|]. by rewrite Hthreads.
    + rewrite (__init___baseline Hok) in Hinit. injection Hinit as <-.
      by repeat split.
  - intros Hok. split.
    + eexists. by apply __init___baseline.
    + intros w Hw. eexists. by apply (__init___warp w).
  - intros w.
    split; [intros; apply keeps_configure|].
    split; [intros; apply keeps_encode|].
    split; [intros; apply keeps_dense_search|].
    split; intros; [apply keeps_search | apply keeps_search_all].
Qed.

End Resolved.

Lemma Config_configure_other a x b y (c : Configuration) (o : string) :
  o <> a -> o <> b -> Config_configure [(a, x); (b, y)] c !! o = c !! o.
Proof.
  intros Ha Hb. unfold Config_configure, setattr. simpl.
  destruct y; [rewrite lookup_insert_ne by done
              |rewrite lookup_delete_ne by done].
  all: destruct x; [by rewrite lookup_insert_ne
                   |by rewrite lookup_delete_ne].
Qed.

(** C6, amended (configuration precedence; [from_existing] is modelled
    from the specification).  The configuration the constructor assigns
    to [self.config] is the two-stage merge: the caller's configuration
    over the process defaults, then the checkpoint's and the index's
    configuration over that.  An option set in the caller's
    configuration and in neither the checkpoint's nor the index's keeps
    the caller's value, whatever the process defaults say.  The
    Searcher that is built holds that merge, with [checkpoint] and
    [collection] set by the constructor's own [configure] call. *)
Theorem configuration_precedence :
  let two_stage :=
    from_existing
      [Some ckpt; Some idx;
       Some (from_existing [caller_config conf_arg; Some run_config])] in
  (forall caller o v,
     caller_config conf_arg = Some caller ->
     caller !! o = Some v -> ckpt !! o = None -> idx !! o = None ->
     two_stage !! o = Some v) /\
  (forall warp_engine s,
     init warp_engine = inr s ->
     config s =
       Config_configure
         [("checkpoint", py_or checkpoint_arg (idx !! "checkpoint"));
          ("collection",
           Collection_cast
             (py_or collection_arg (two_stage !! "collection")))]
         two_stage /\
     (forall caller o v,
        o <> "checkpoint" -> o <> "collection" ->
        caller_config conf_arg = Some caller ->
        caller !! o = Some v -> ckpt !! o = None -> idx !! o = None ->
        config s !! o = Some v)).
Proof.
  intros two_stage.
  assert (Hprec : forall caller o v,
             caller_config conf_arg = Some caller ->
             caller !! o = Some v -> ckpt !! o = None -> idx !! o = None ->
             two_stage !! o = Some v).
  { intros caller o v Hcaller Ho Hckpt Hidx. subst two_stage.
    rewrite !from_existing_cons_lookup, Hckpt, Hidx, Hcaller.
    by rewrite from_existing_cons_lookup, Ho. }
  split; [exact Hprec|].
  intros warp_engine s. rewrite __init___resolved.
  destruct (gt0 _) as [e|use_gpu]; [done|]. cbn [bind_exn].
  destruct (truthy _ && use_gpu); [done|].
  match goal with |- bind_exn ?r _ = _ -> _ => destruct r as [e|r'] end;
    [done|].
  cbn [bind_exn]. intros [= <-]. split; [done|].
  intros caller o v Hck Hcol Hcaller Ho Hckpt Hidx. simpl.
  unfold resolved_config. rewrite Config_configure_other by done.
  by eapply Hprec.
Qed.

End Construction.

(** ** More of the methods *)

Section Methods.

Context {embedding : Type}.
Variable Queries_cast : TextQueries -> Queries.
Variable queryFromText :
  Checkpoint -> list string -> option Z -> bool -> bool ->
  exn + list embedding.
Variable rank :
  Ranker -> Configuration -> list embedding -> option Z ->
  option (Z -> bool) -> option (list Z) -> exn + (list Z * list score).

(** [encode] in one step: the tokenizer of the checkpoint takes the
    [query_maxlen] of the configuration, then the encoder runs. *)
Lemma encode_run text full_length_search (w : World) :
  let queries := match text with StrList l => l | Str t => [t] end in
  let ck :=
    with_query_maxlen (config (self w) !! "query_maxlen")
      (checkpoint (self w)) in
  encode queryFromText text full_length_search w =
  ({| self := with_checkpoint ck (self w); bar := bar w |},
   queryFromText ck queries
     (if 128 <? Z.of_nat (length queries) then Some 128 else None) true
     full_length_search).
Proof. reflexivity. Qed.

(** X1.  [encode] takes a lone string as the list of that one string;
    it asks the encoder for batches of 128 exactly when there are more
    than 128 queries; it changes nothing of the Searcher but the
    [query_maxlen] of the checkpoint's tokenizer, which becomes that of
    the configuration, so that a second [encode] leaves the Searcher as
    the first did. *)
Theorem encode_batches :
  (forall t fl (w : World),
     encode queryFromText (Str t) fl w =
     encode queryFromText (StrList [t]) fl w) /\
  (forall texts fl (w : World),
     let ck :=
       with_query_maxlen (config (self w) !! "query_maxlen")
         (checkpoint (self w)) in
     (length texts <= 128)%nat ->
     (encode queryFromText (StrList texts) fl w).2 =
     queryFromText ck texts None true fl) /\
  (forall texts fl (w : World),
     let ck :=
       with_query_maxlen (config (self w) !! "query_maxlen")
         (checkpoint (self w)) in
     (128 < length texts)%nat ->
     (encode queryFromText (StrList texts) fl w).2 =
     queryFromText ck texts (Some 128) true fl) /\
  (forall text fl (w : World),
     let w' := (encode queryFromText text fl w).1 in
     config (self w') = config (self w) /\
     query_maxlen (checkpoint (self w')) =
       config (self w) !! "query_maxlen" /\
     with_checkpoint (checkpoint (self w)) (self w') = self w /\
     bar w' = bar w) /\
  (forall text1 fl1 text2 fl2 (w : World),
     let w' := (encode queryFromText text1 fl1 w).1 in
     (encode queryFromText text2 fl2 w').1 = w').
Proof.
  split; [done|]. split; [|split; [|split]].
  - intros texts fl w ck Hlen. rewrite encode_run. simpl.
    by assert ((128 <? Z.of_nat (length texts)) = false) as -> by lia.
  - intros texts fl w ck Hlen. rewrite encode_run. simpl.
    by assert ((128 <? Z.of_nat (length texts)) = true) as -> by lia.
  - intros text fl w. rewrite encode_run. simpl.
    repeat split. by destruct (self w).
  - intros text1 fl1 text2 fl2 w. by rewrite !encode_run.
Qed.

(** X2.  When the encoder fails, [search] raises the encoder's error;
    the backend has not been asked and the adaptive fill has not run:
    the configuration is as it was. *)
Theorem search_encoder_failure text k filter_fn fl pids (w : World) e :
  queryFromText
    (with_query_maxlen (config (self w) !! "query_maxlen")
       (checkpoint (self w))) [text] None true fl = inl e ->
  let run := search queryFromText rank text k filter_fn fl pids w in
  run.2 = inl e /\ config (self run.1) = config (self w).
Proof.
  intros Hfail run. subst run. unfold search, bind.
  rewrite encode_run. simpl. by rewrite Hfail.
Qed.

(** *** The adaptive fill, option by option *)

Lemma fill_if_unset_default name v (cfg : Configuration) :
  fill_if_unset name v cfg !! name = Some (default v (cfg !! name)).
Proof.
  destruct (cfg !! name) as [x|] eqn:Hx; simpl.
  - by apply fill_if_unset_set.
  - by apply fill_if_unset_unset.
Qed.

(** X3.  [dense_search] fills the three breadth options one by one: each
    of them holds, after the call, the value it had if it had one, and
    otherwise the value of the bucket of [k], whatever the other two
    held. *)
Theorem dense_search_fills_each Q k filter_fn pids (w : World) :
  let before := config (self w) in
  let after := config (self (dense_search rank Q k filter_fn pids w).1) in
  after !! "ncells" =
    Some (default
            (VInt (if k <=? 10 then 1 else if k <=? 100 then 2 else 4))
            (before !! "ncells")) /\
  after !! "centroid_score_threshold" =
    Some (default
            (VFloat (if k <=? 10 then 0.5
                     else if k <=? 100 then 0.45 else 0.4))
            (before !! "centroid_score_threshold")) /\
  after !! "ndocs" =
    Some (default
            (VInt (if k <=? 10 then 256
                   else if k <=? 100 then 1024 else Z.max (k * 4) 4096))
            (before !! "ndocs")).
Proof.
  intros before after. subst after. rewrite dense_search_run. simpl.
  fold before. unfold adaptive_fill.
  destruct (k <=? 10); [|destruct (k <=? 100)].
  all: split; [|split].
  all: rewrite ?fill_if_unset_other by done.
  all: by rewrite fill_if_unset_default, ?fill_if_unset_other by done.
Qed.

(** X4.  The fill is sticky only as long as the option is set: after
    [configure(ndocs=None)], the next [dense_search] takes [ndocs] from
    the bucket of its own [k], while [ncells] and
    [centroid_score_threshold] stay as the first call left them. *)
Theorem configure_None_refills k1 k2 Q1 Q2 f1 f2 p1 p2 (w : World) :
  let w1 := (dense_search rank Q1 k1 f1 p1 w).1 in
  let w2 := (configure [("ndocs", None)] w1).1 in
  let w3 := (dense_search rank Q2 k2 f2 p2 w2).1 in
  config (self w3) !! "ndocs" =
    Some (VInt (if k2 <=? 10 then 256
                else if k2 <=? 100 then 1024 else Z.max (k2 * 4) 4096)) /\
  config (self w3) !! "ncells" = config (self w1) !! "ncells" /\
  config (self w3) !! "centroid_score_threshold" =
    config (self w1) !! "centroid_score_threshold".
Proof.
  intros w1 w2 w3. subst w3 w2 w1. rewrite !dense_search_run. simpl.
  unfold Config_configure, setattr. simpl.
  destruct (adaptive_fill_fills k1 (config (self w))) as ([n Hn] & [t Ht] & _).
  set (c1 := adaptive_fill k1 (config (self w))) in *.
  assert (Hn' : delete "ndocs" c1 !! "ncells" = Some n)
    by (by rewrite lookup_delete_ne).
  assert (Ht' : delete "ndocs" c1 !! "centroid_score_threshold" = Some t)
    by (by rewrite lookup_delete_ne).
  split; [|split].
  - unfold adaptive_fill.
    destruct (k2 <=? 10); [|destruct (k2 <=? 100)].
    all: rewrite fill_if_unset_default, !fill_if_unset_other by done.
    all: by rewrite lookup_delete_eq.
  - rewrite Hn. by apply adaptive_fill_set.
  - rewrite Ht. by apply adaptive_fill_set.
Qed.

(** *** What [dense_search] returns *)

Lemma lookup_range1 (k : Z) (i : nat) :
  (i < Z.to_nat k)%nat -> range1 k !! i = Some (Z.of_nat i + 1).
Proof.
  intros Hi. unfold range1. rewrite list_lookup_fmap.
  rewrite lookup_seq_lt by done. simpl. f_equal. lia.
Qed.

(** X5.  For [0 <= k], when the backend returns [ids] and [scores],
    [dense_search] returns the first [k] ids and scores, in the backend's
    order, and the ranks 1 to [k]; the three sequences all have [k]
    entries when the backend returned at least [k] of each. *)
Theorem dense_search_first_k Q k filter_fn pids (w : World) ids scores :
  0 <= k ->
  rank (ranker (self w)) (adaptive_fill k (config (self w))) Q
    (if warp_engine (self w) then Some k else None) filter_fn pids =
    inr (ids, scores) ->
  exists ids' ranks scores',
    (dense_search rank Q k filter_fn pids w).2 = inr (ids', ranks, scores') /\
    ids' = take (Z.to_nat k) ids /\
    scores' = take (Z.to_nat k) scores /\
    length ranks = Z.to_nat k /\
    (forall i : nat, (i < Z.to_nat k)%nat ->
                     ranks !! i = Some (Z.of_nat i + 1)) /\
    ((Z.to_nat k <= length ids)%nat ->
     (Z.to_nat k <= length scores)%nat ->
     length ids' = Z.to_nat k /\ length scores' = Z.to_nat k).
Proof.
  intros Hk Hrank. eexists _, _, _.
  split; [by apply dense_search_returns|].
  unfold slice_to. assert ((0 <=? k) = true) as -> by lia.
  split; [done|]. split; [done|]. split; [apply length_range1|].
  split; [apply lookup_range1|].
  intros Hids Hscores. rewrite !length_take. lia.
Qed.

(** X6.  A [k] below 1 raises nothing.  With [k = 0] the three sequences
    are empty; with a negative [k] there are no ranks, and the ids and
    scores are the backend's without their last [-k] entries. *)
Theorem dense_search_nonpositive_k Q k filter_fn pids (w : World) ids
  scores :
  rank (ranker (self w)) (adaptive_fill k (config (self w))) Q
    (if warp_engine (self w) then Some k else None) filter_fn pids =
    inr (ids, scores) ->
  (k = 0 ->
   (dense_search rank Q k filter_fn pids w).2 = inr ([], [], [])) /\
  (k < 0 ->
   (dense_search rank Q k filter_fn pids w).2 =
     inr (take (length ids - Z.to_nat (- k)) ids, [],
          take (length scores - Z.to_nat (- k)) scores)).
Proof.
  intros Hrank. erewrite dense_search_returns by exact Hrank.
  split; intros Hk.
  - subst k. unfold slice_to, range1. simpl. by rewrite !take_0.
  - assert (range1 k = []) as ->.
    { unfold range1. by assert (Z.to_nat k = 0%nat) as -> by lia. }
    unfold slice_to. assert ((0 <=? k) = false) as -> by lia.
    do 3 f_equal; f_equal; lia.
Qed.

Lemma take_range1 (k1 k2 : Z) :
  0 <= k1 <= k2 -> take (Z.to_nat k1) (range1 k2) = range1 k1.
Proof.
  intros Hk. unfold range1. rewrite <- fmap_take, take_seq.
  do 2 f_equal. lia.
Qed.

(** X7.  The baseline scorer is not told [k].  On a baseline Searcher
    whose three breadth options are set, what [dense_search] returns for
    [k1] is the first [k1] entries of what it returns for any larger
    [k2]. *)
Theorem baseline_results_are_prefixes Q k1 k2 filter_fn pids (w : World)
  ids ranks scores :
  warp_engine (self w) = false ->
  is_Some (config (self w) !! "ncells") ->
  is_Some (config (self w) !! "centroid_score_threshold") ->
  is_Some (config (self w) !! "ndocs") ->
  0 <= k1 <= k2 ->
  (dense_search rank Q k2 filter_fn pids w).2 = inr (ids, ranks, scores) ->
  (dense_search rank Q k1 filter_fn pids w).2 =
    inr (take (Z.to_nat k1) ids, take (Z.to_nat k1) ranks,
         take (Z.to_nat k1) scores).
Proof.
  intros Hbase H1 H2 H3 Hk. rewrite !dense_search_run. simpl.
  unfold rank_and_trim. rewrite Hbase.
  rewrite !adaptive_fill_filled by done.
  destruct (rank _ _ _ _ _ _) as [e|[found_ids found_scores]]; [done|].
  intros [= <- <- <-]. unfold slice_to.
  assert ((0 <=? k1) = true) as -> by lia.
  assert ((0 <=? k2) = true) as -> by lia.
  rewrite take_range1 by done. rewrite !take_take.
  by replace (Z.to_nat k1 `min` Z.to_nat k2)%nat with (Z.to_nat k1) by lia.
Qed.

(** *** The batch, step by step *)

Lemma _search_all_Q_steps queries Q k filter_fn qid_to_pids show_progress
  (w : World) :
  _search_all_Q rank queries Q k filter_fn qid_to_pids show_progress w =
  match
    tqdm_comprehension (negb show_progress) 0
      (enumerate (dict_keys (Queries_data queries)))
      (scored_pids rank Q k filter_fn (pools_of queries qid_to_pids)) w
  with
  | (w', inr rows) =>
      (w',
       inr {| Ranking_data :=
                dict_of (zip (dict_keys (Queries_data queries)) rows);
              Ranking_provenance :=
                provenance_of queries (config (self w')) k |})
  | (w', inl e) => (w', inl e)
  end.
Proof. reflexivity. Qed.

Lemma search_all_steps queries k filter_fn fl qid_to_pids show_progress
  (w : World) :
  let batch := Queries_cast queries in
  let texts := dict_values (Queries_data batch) in
  let ck :=
    with_query_maxlen (config (self w) !! "query_maxlen")
      (checkpoint (self w)) in
  search_all Queries_cast queryFromText rank queries k filter_fn fl
    qid_to_pids show_progress w =
  match
    queryFromText ck texts
      (if 128 <? Z.of_nat (length texts) then Some 128 else None) true fl
  with
  | inr Q =>
      _search_all_Q rank batch Q k filter_fn qid_to_pids show_progress
        {| self := with_checkpoint ck (self w); bar := bar w |}
  | inl e => ({| self := with_checkpoint ck (self w); bar := bar w |}, inl e)
  end.
Proof.
  intros batch texts ck. unfold search_all, bind. rewrite encode_run.
  fold batch texts ck. by destruct (queryFromText _ _ _ _ _).
Qed.

Lemma scored_pids_run Q k filter_fn pools i qid (w : World) :
  scored_pids rank Q k filter_fn pools (i, qid) w =
  match dict_get qid pools with
  | None => (w, inl KeyError)
  | Some pids =>
      let cfg' := adaptive_fill k (config (self w)) in
      ({| self := with_config cfg' (self w); bar := bar w |},
       match rank_and_trim rank (self w) cfg' (slice1 i Q) k filter_fn pids
       with
       | inr (ids, ranks, scores) => inr (zip3 ids ranks scores)
       | inl e => inl e
       end)
  end.
Proof.
  unfold scored_pids. destruct (dict_get qid pools) as [pids|]; [|done].
  unfold bind at 1. unfold ret at 1. unfold bind. rewrite dense_search_run.
  by destruct (rank_and_trim _ _ _ _ _ _ _) as [e|[[ids ranks] scores]].
Qed.

Lemma tqdm_comprehension_cons {A B} disable n (x : A) items
  (body : A -> M B) (w : World) :
  tqdm_comprehension disable n (x :: items) body w =
  match body x w with
  | (w1, inr y) =>
      let w2 :=
        if disable then w1
        else {| self := self w1; bar := bar w1 ++ [S n] |} in
      match tqdm_comprehension disable (S n) items body w2 with
      | (w3, inr ys) => (w3, inr (y :: ys))
      | (w3, inl e) => (w3, inl e)
      end
  | (w1, inl e) => (w1, inl e)
  end.
Proof.
  simpl. unfold bind at 1. destruct (body x w) as [w1 [e|y]]; [done|].
  unfold bind at 1. destruct disable; simpl; unfold bind;
    by destruct (tqdm_comprehension _ _ _ _ _) as [w3 [e|ys]].
Qed.

(** A comprehension with an element that raises returns nothing.  The
    element may need something of the Searcher, which the elements
    keep. *)
Lemma tqdm_comprehension_fails {A B} (I : Searcher -> Prop) disable
  (items : list A) (body : A -> M B) x0 :
  x0 ∈ items ->
  (forall x w, I (self w) -> I (self (body x w).1)) ->
  (forall w, I (self w) -> exists e, (body x0 w).2 = inl e) ->
  forall n w, I (self w) ->
    exists e, (tqdm_comprehension disable n items body w).2 = inl e.
Proof.
  intros Hin Hkeep Hfail.
  induction items as [|x items IH]; intros n w Hw.
  - by apply elem_of_nil in Hin.
  - rewrite tqdm_comprehension_cons.
    pose proof (Hkeep x w Hw) as Hw1.
    destruct (body x w) as [w1 [e|y]] eqn:Hx; [by eexists|].
    apply elem_of_cons in Hin as [->|Hin].
    + destruct (Hfail w Hw) as [e He]. rewrite Hx in He. done.
    + cbv zeta.
      match goal with |- context [tqdm_comprehension ?d ?m ?l ?b ?w0] =>
        destruct (IH Hin m w0) as [e He];
        [by destruct disable|];
        destruct (tqdm_comprehension d m l b w0) as [w3 [e'|ys]]
      end; [by eexists | done].
Qed.

(** When the elements raise nothing but [e] and one of them does, the
    comprehension raises [e]. *)
Lemma tqdm_comprehension_raises {A B} disable (items : list A)
  (body : A -> M B) x0 e :
  x0 ∈ items -> (forall w, (body x0 w).2 = inl e) ->
  (forall x w e', x ∈ items -> (body x w).2 = inl e' -> e' = e) ->
  forall n w, (tqdm_comprehension disable n items body w).2 = inl e.
Proof.
  intros Hin Hfail Honly. induction items as [|x items IH]; intros n w.
  - by apply elem_of_nil in Hin.
  - rewrite tqdm_comprehension_cons.
    destruct (body x w) as [w1 [e'|y]] eqn:Hx.
    + simpl. f_equal. apply (Honly x w); [by left | by rewrite Hx].
    + apply elem_of_cons in Hin as [->|Hin].
      * specialize (Hfail w). by rewrite Hx in Hfail.
      * cbv zeta.
        match goal with |- context [tqdm_comprehension ?d ?m ?l ?b ?w0] =>
          assert (Hrest : (tqdm_comprehension d m l b w0).2 = inl e);
          [|destruct (tqdm_comprehension d m l b w0) as [w3 [e'|ys]]]
        end; [|done..].
        apply IH; [done|]. intros x' w' e' Hx'. apply Honly. by right.
Qed.

(** What every element returns holds of every entry of the result. *)
Lemma tqdm_comprehension_Forall {A B} (P : B -> Prop) disable
  (items : list A) (body : A -> M B) :
  (forall x w w' y, body x w = (w', inr y) -> P y) ->
  forall n w w' ys,
    tqdm_comprehension disable n items body w = (w', inr ys) -> Forall P ys.
Proof.
  intros Hbody. induction items as [|x items IH]; intros n w w' ys.
  - by intros [= _ <-].
  - rewrite tqdm_comprehension_cons.
    destruct (body x w) as [w1 [e|y]] eqn:Hx; [done|]. cbv zeta.
    destruct (tqdm_comprehension _ _ _ _ _) as [w3 [e|ys']] eqn:Hrest;
      [done|].
    intros [= _ <-]. constructor; [by eapply Hbody | by eapply IH].
Qed.

(** The configuration after the comprehension of [_search_all_Q]: filled
    for [k] as soon as one query was ranked. *)
Lemma scored_pids_config Q k filter_fn pools disable items :
  forall n (w w' : World) rows,
    tqdm_comprehension disable n items
      (scored_pids rank Q k filter_fn pools) w = (w', inr rows) ->
    config (self w') =
      match items with
      | [] => config (self w)
      | _ :: _ => adaptive_fill k (config (self w))
      end.
Proof.
  induction items as [|[i qid] items IH]; intros n w w' rows.
  - by intros [= <- _].
  - rewrite tqdm_comprehension_cons, scored_pids_run.
    destruct (dict_get qid pools) as [pids|]; [|done]. cbv zeta.
    destruct (rank_and_trim _ _ _ _ _ _ _) as [e|[[ids ranks] scores]];
      [done|].
    destruct (tqdm_comprehension _ _ _ _ _) as [w3 [e|rows']] eqn:Hrest;
      [done|].
    intros [= <- _]. apply IH in Hrest. rewrite Hrest.
    destruct items; destruct disable; simpl;
      by rewrite ?adaptive_fill_sticky.
Qed.

Lemma elem_of_enumerate_lookup {A} (l : list A) i x :
  l !! i = Some x -> (i, x) ∈ enumerate l.
Proof.
  intros Hi. unfold enumerate. apply list_elem_of_lookup. exists i.
  rewrite lookup_zip_with. rewrite lookup_seq_lt.
  - simpl. by rewrite Hi.
  - by apply lookup_lt_Some in Hi.
Qed.

(** *** Claims about the batch *)

(** X8.  On an empty batch [search_all] asks the encoder for no query
    and the backend for nothing: the adaptive fill does not run, and the
    Ranking has no entry and carries the configuration as it was. *)
Theorem search_all_empty_batch queries k filter_fn fl qid_to_pids
  show_progress (w : World) :
  Queries_data (Queries_cast queries) = [] ->
  let run :=
    search_all Queries_cast queryFromText rank queries k filter_fn fl
      qid_to_pids show_progress w in
  let ck :=
    with_query_maxlen (config (self w) !! "query_maxlen")
      (checkpoint (self w)) in
  config (self run.1) = config (self w) /\
  run.2 =
    match queryFromText ck [] None true fl with
    | inr _ =>
        inr {| Ranking_data := [];
               Ranking_provenance :=
                 provenance_of (Queries_cast queries) (config (self w)) k |}
    | inl e => inl e
    end.
Proof.
  intros Hempty run ck. subst run. rewrite search_all_steps.
  rewrite Hempty. simpl. fold ck.
  destruct (queryFromText ck [] None true fl) as [e|Q]; [done|].
  rewrite _search_all_Q_steps, Hempty. done.
Qed.

(** X9.  When the caller's candidate pools have no entry for a query of
    the batch, [search_all] raises [KeyError] (the encoder and the
    backend working), however many queries came before it.  The keys of
    the pools and the query identifier are integers or strings, so that
    the identifier is among the keys for Python as it is here. *)
Theorem search_all_missing_pool queries k filter_fn fl d show_progress
  (w : World) qid :
  plain_key qid = true ->
  forallb plain_key (dict_keys d) = true ->
  qid ∈ dict_keys (Queries_data (Queries_cast queries)) ->
  dict_get qid d = None ->
  (forall c texts bsize to_cpu full,
     exists Q, queryFromText c texts bsize to_cpu full = inr Q) ->
  (forall r c Q k' f p, exists found, rank r c Q k' f p = inr found) ->
  (search_all Queries_cast queryFromText rank queries k filter_fn fl
     (Some d) show_progress w).2 = inl KeyError.
Proof.
  intros _ _ Hqid Hmissing Hencoder Hrank. rewrite search_all_steps.
  match goal with |- context [queryFromText ?c ?t ?b ?p ?f] =>
    destruct (Hencoder c t b p f) as [Q ->] end.
  rewrite _search_all_Q_steps.
  apply list_elem_of_lookup in Hqid as [i Hi].
  apply elem_of_enumerate_lookup in Hi.
  match goal with |- context [tqdm_comprehension ?dis ?n ?l ?b ?w0] =>
    assert (Hraises : (tqdm_comprehension dis n l b w0).2 = inl KeyError)
  end.
  { apply (tqdm_comprehension_raises _ _ _ (i, qid)); [exact Hi|..].
    - intros w0. rewrite scored_pids_run. simpl. by rewrite Hmissing.
    - intros [j qid'] w0 e' _. rewrite scored_pids_run. simpl.
      destruct (dict_get qid' d) as [pids|]; [|by intros [= <-]].
      simpl. unfold rank_and_trim.
      match goal with |- context [rank ?a ?b ?c ?d ?e ?f] =>
        destruct (Hrank a b c d e f) as [[ids scores] ->] end.
      done. }
  destruct (tqdm_comprehension _ _ _ _ _) as [w' [e|rows]];
    simpl in Hraises; [by injection Hraises as -> | discriminate Hraises].
Qed.

(** X10.  A query the backend cannot rank aborts the batch.  When the
    backend fails on the embedding of the query at position [i] (called
    as [dense_search] calls it: by the Searcher's ranker, with the
    configuration filled for [k]), [search_all] returns no Ranking,
    whatever the position and whatever the backend returns for the other
    queries. *)
Theorem search_all_backend_failure queries k filter_fn fl qid_to_pids
  show_progress (w : World) (i : nat) qid :
  let batch := Queries_cast queries in
  let texts := dict_values (Queries_data batch) in
  let ck :=
    with_query_maxlen (config (self w) !! "query_maxlen")
      (checkpoint (self w)) in
  dict_keys (Queries_data batch) !! i = Some qid ->
  (forall Q,
     queryFromText ck texts
       (if 128 <? Z.of_nat (length texts) then Some 128 else None) true fl =
       inr Q ->
     forall pids, exists e,
       rank (ranker (self w)) (adaptive_fill k (config (self w)))
         (slice1 i Q) (if warp_engine (self w) then Some k else None)
         filter_fn pids = inl e) ->
  exists e,
    (search_all Queries_cast queryFromText rank queries k filter_fn fl
       qid_to_pids show_progress w).2 = inl e.
Proof.
  intros batch texts ck Hi Hfails. rewrite search_all_steps.
  fold batch texts ck.
  destruct (queryFromText _ _ _ _ _) as [e|Q]; [by eexists|].
  specialize (Hfails Q eq_refl). rewrite _search_all_Q_steps.
  apply elem_of_enumerate_lookup in Hi.
  match goal with |- context [tqdm_comprehension ?dis ?m ?l ?b ?w0] =>
    assert (Hraises : exists e, (tqdm_comprehension dis m l b w0).2 = inl e)
  end.
  { apply (tqdm_comprehension_fails
             (fun s =>
                ranker s = ranker (self w) /\
                warp_engine s = warp_engine (self w) /\
                adaptive_fill k (config s) =
                  adaptive_fill k (config (self w))) _ _ _ (i, qid));
      [exact Hi | | | done].
    - intros [j qid'] w0 (Hr & Hw & Hc). rewrite scored_pids_run.
      destruct (dict_get qid' _) as [pids|]; [|done]. simpl.
      by rewrite adaptive_fill_sticky.
    - intros w0 (Hr & Hw & Hc). rewrite scored_pids_run.
      destruct (dict_get qid _) as [pids|]; [|by eexists].
      simpl. unfold rank_and_trim. rewrite Hr, Hw, Hc.
      destruct (Hfails pids) as [err ->]. by eexists. }
  destruct Hraises as [e Hraises].
  destruct (tqdm_comprehension _ _ _ _ _) as [w' [e'|rows]];
    simpl in Hraises; [by eexists | discriminate Hraises].
Qed.

Lemma elem_of_foldl_dict_set {K V} `{EqDecision K} (acc items : list (K * V))
  x :
  x ∈ foldl (fun d kv => dict_set kv.1 kv.2 d) acc items ->
  x ∈ acc \/ x ∈ items.
Proof.
  assert (Hset : forall k v (d : list (K * V)),
             x ∈ dict_set k v d -> x = (k, v) \/ x ∈ d).
  { intros k v d. induction d as [|[k0 v0] d IH]; simpl.
    - rewrite elem_of_cons, elem_of_nil. tauto.
    - destruct (decide (k = k0)); rewrite !elem_of_cons; tauto. }
  revert acc. induction items as [|[k v] items IH]; intros acc; simpl.
  - tauto.
  - intros Hx. apply IH in Hx as [Hx|Hx].
    + apply Hset in Hx as [->|Hx]; [right; left | by left].
    + right. by right.
Qed.

(** Zipped with the ranks from [s] on, the rows carry consecutive ranks
    from [s] on, and no more of them than there are ranks. *)
Lemma zip3_ranks (a : list Z) (c : list score) (s m : nat) :
  (fun r : row => r.1.2) <$> zip3 a (Z.of_nat <$> seq s m) c =
    Z.of_nat <$> seq s (length (zip3 a (Z.of_nat <$> seq s m) c)) /\
  (length (zip3 a (Z.of_nat <$> seq s m) c) <= m)%nat.
Proof.
  revert s m c. induction a as [|x a IH]; intros s m c; simpl.
  - split; [done | lia].
  - destruct m as [|m]; simpl; [split; [done | lia]|].
    destruct c as [|z c]; simpl; [split; [done | lia]|].
    destruct (IH (S s) m c) as [Hranks Hlen].
    split; [f_equal; exact Hranks | apply le_n_S, Hlen].
Qed.

(** X11.  In the Ranking that [search_all] returns for [0 <= k], every
    entry belongs to a query of the batch and has at most [k] rows, with
    the ranks 1, 2, ... in order and none beyond the documents found:
    the ranks that [dense_search] lists past the backend's results are
    cut by the zip. *)
Theorem search_all_rows queries k filter_fn fl qid_to_pids show_progress
  (w w' : World) ranking :
  0 <= k ->
  search_all Queries_cast queryFromText rank queries k filter_fn fl
    qid_to_pids show_progress w = (w', inr ranking) ->
  forall qid rows,
    (qid, rows) ∈ Ranking_data ranking ->
    qid ∈ dict_keys (Queries_data (Queries_cast queries)) /\
    (length rows <= Z.to_nat k)%nat /\
    (fun r : row => r.1.2) <$> rows = Z.of_nat <$> seq 1 (length rows).
Proof.
  intros Hk. rewrite search_all_steps.
  destruct (queryFromText _ _ _ _ _) as [e|Q]; [done|].
  rewrite _search_all_Q_steps.
  destruct (tqdm_comprehension _ _ _ _ _) as [w1 [e|all_rows]] eqn:Hrun;
    [done|].
  intros [= <- <-] qid rows Hin. simpl in Hin.
  apply elem_of_foldl_dict_set in Hin as [Hin|Hin];
    [by apply elem_of_nil in Hin|].
  split; [by apply elem_of_zip_l in Hin|].
  apply elem_of_zip_r in Hin.
  eapply (tqdm_comprehension_Forall
            (fun rows : list row =>
               (length rows <= Z.to_nat k)%nat /\
               (fun r : row => r.1.2) <$> rows =
                 Z.of_nat <$> seq 1 (length rows))) in Hrun.
  - rewrite Forall_forall in Hrun. by apply Hrun.
  - clear. intros [i qid] w0 w1 rows. rewrite scored_pids_run.
    destruct (dict_get qid _) as [pids|]; [|done]. simpl.
    unfold rank_and_trim.
    destruct (rank _ _ _ _ _ _) as [e|[ids scores]]; [done|].
    intros [= _ <-]. unfold range1.
    destruct (zip3_ranks (slice_to k ids) (slice_to k scores) 1
                (Z.to_nat k)) as [Hranks Hlen].
    by split.
Qed.

(** X12.  The Provenance of a batch records the configuration the
    queries were ranked with: for a batch that is not empty, the
    configuration of the Searcher before the call with the breadth
    options filled for [k], which is also the configuration the call
    leaves. *)
Theorem search_all_provenance_config queries k filter_fn fl qid_to_pids
  show_progress (w w' : World) ranking :
  Queries_data (Queries_cast queries) <> [] ->
  search_all Queries_cast queryFromText rank queries k filter_fn fl
    qid_to_pids show_progress w = (w', inr ranking) ->
  provenance_config (Ranking_provenance ranking) =
    adaptive_fill k (config (self w)) /\
  config (self w') = adaptive_fill k (config (self w)).
Proof.
  intros Hbatch. rewrite search_all_steps.
  destruct (queryFromText _ _ _ _ _) as [e|Q]; [done|].
  rewrite _search_all_Q_steps.
  destruct (tqdm_comprehension _ _ _ _ _) as [w1 [e|all_rows]] eqn:Hrun;
    [done|].
  intros [= <- <-]. simpl. apply scored_pids_config in Hrun.
  rewrite Hrun. unfold enumerate, dict_keys.
  destruct (Queries_data (Queries_cast queries)); done.
Qed.

(** X13.  A batch of one query is the single search of its text: when
    the encoder returns one embedding for the text, [search_all] without
    candidate pools leaves the Searcher as [search] does, raises what
    [search] raises, and returns the zip of what [search] returns, under
    the identifier of the query. *)
Theorem search_all_of_one_is_search queries k filter_fn fl show_progress
  (w : World) qid text q :
  Queries_data (Queries_cast queries) = [(qid, text)] ->
  queryFromText
    (with_query_maxlen (config (self w) !! "query_maxlen")
       (checkpoint (self w))) [text] None true fl = inr [q] ->
  let one := search queryFromText rank text k filter_fn fl None w in
  let batch :=
    search_all Queries_cast queryFromText rank queries k filter_fn fl None
      show_progress w in
  self batch.1 = self one.1 /\
  batch.2 =
    match one.2 with
    | inr (ids, ranks, scores) =>
        inr {| Ranking_data := [(qid, zip3 ids ranks scores)];
               Ranking_provenance :=
                 provenance_of (Queries_cast queries) (config (self one.1))
                   k |}
    | inl e => inl e
    end.
Proof.
  intros Hbatch Hencoded one batch. subst one batch.
  rewrite search_all_steps, Hbatch.
  change (dict_values [(qid, text)]) with [text].
  change (128 <? Z.of_nat (length [text])) with false. cbv iota.
  rewrite Hencoded, _search_all_Q_steps.
  unfold pools_of. rewrite Hbatch.
  change (enumerate (dict_keys [(qid, text)])) with [(0%nat, qid)].
  rewrite tqdm_comprehension_cons, scored_pids_run.
  unfold dict_of. simpl. rewrite decide_True by done. simpl.
  unfold search, bind. rewrite encode_run. simpl. rewrite Hencoded.
  rewrite dense_search_run. simpl. unfold slice1. simpl.
  destruct (rank_and_trim _ _ _ _ _ _ _) as [e|[[ids ranks] scores]];
    [done|].
  by destruct show_progress.
Qed.

End Methods.

(** ** More of the constructor *)

Section Constructed.

Variable run_config : Configuration.
Variable index_root_ : Configuration -> string.
Variable path_join : string -> string -> string.
Variable load_from_index : string -> exn + Configuration.
Variable load_from_checkpoint : option value -> exn + Configuration.
Variable Collection_cast : option value -> option value.
Variable get_num_threads : Z.

Variables (index_arg : string) (checkpoint_arg collection_arg : option value)
  (conf_arg : option config_arg) (index_root_arg : option string)
  (verbose_arg : Z) (requested : bool).

Local Abbreviation init :=
  (__init__ run_config index_root_ path_join load_from_index
     load_from_checkpoint Collection_cast get_num_threads index_arg
     checkpoint_arg collection_arg conf_arg index_root_arg verbose_arg
     requested).

(** A Searcher that the constructor returns is one that [built] makes,
    from configurations that loaded. *)
Lemma __init___returns s :
  init = inr s ->
  exists idx ckpt use_gpu r,
    load_from_index
      (index_path run_config index_root_ path_join index_arg conf_arg
         index_root_arg) = inr idx /\
    load_from_checkpoint (py_or checkpoint_arg (idx !! "checkpoint")) =
      inr ckpt /\
    gt0 (resolved_config run_config Collection_cast checkpoint_arg
           collection_arg conf_arg idx ckpt !! "total_visible_gpus") =
      inr use_gpu /\
    truthy (resolved_config run_config Collection_cast checkpoint_arg
              collection_arg conf_arg idx ckpt !! "load_index_with_mmap")
      && use_gpu = false /\
    s = built run_config index_root_ path_join Collection_cast index_arg
          checkpoint_arg collection_arg conf_arg index_root_arg verbose_arg
          idx ckpt use_gpu r requested.
Proof.
  destruct (load_from_index
              (index_path run_config index_root_ path_join index_arg
                 conf_arg index_root_arg)) as [e|idx] eqn:Hidx.
  { unfold __init__. fold (caller_config conf_arg).
    change (path_join _ index_arg) with
      (index_path run_config index_root_ path_join index_arg conf_arg
         index_root_arg).
    by rewrite Hidx. }
  destruct (load_from_checkpoint (py_or checkpoint_arg (idx !! "checkpoint")))
    as [e|ckpt] eqn:Hckpt.
  { unfold __init__. fold (caller_config conf_arg).
    change (path_join _ index_arg) with
      (index_path run_config index_root_ path_join index_arg conf_arg
         index_root_arg).
    rewrite Hidx. cbn [bind_exn]. by rewrite Hckpt. }
  rewrite (__init___resolved _ _ _ _ _ _ _ _ _ _ _ _ _ idx ckpt Hidx Hckpt).
  destruct (gt0 _) as [e|use_gpu] eqn:Hgpu; [done|]. cbn [bind_exn].
  destruct (truthy _ && use_gpu) eqn:Hok; [done|].
  match goal with |- bind_exn ?c _ = _ -> _ => destruct c as [e|r] end;
    [done|].
  cbn [bind_exn]. intros [= <-]. by exists idx, ckpt, use_gpu, r.
Qed.

Lemma Config_configure_first a x b y (c : Configuration) :
  a <> b -> Config_configure [(a, x); (b, y)] c !! a = x.
Proof.
  intros Hne. unfold Config_configure, setattr. simpl.
  destruct y; [rewrite lookup_insert_ne by done
              |rewrite lookup_delete_ne by done].
  all: destruct x; [by rewrite lookup_insert_eq | by rewrite lookup_delete_eq].
Qed.

Lemma Config_configure_second a x b y (c : Configuration) :
  Config_configure [(a, x); (b, y)] c !! b = y.
Proof.
  unfold Config_configure, setattr. simpl.
  destruct y; [by rewrite lookup_insert_eq | by rewrite lookup_delete_eq].
Qed.


(** X15.  The checkpoint of a Searcher is the [checkpoint] argument when
    it is given and the checkpoint of the index's configuration
    otherwise, whatever the caller's configuration says; it is the
    [checkpoint] option of the Searcher's configuration, whose
    [collection] option is the Searcher's collection; and the two loaded
    configurations are those of the Searcher's index and checkpoint. *)
Theorem constructed_records s :
  init = inr s ->
  checkpoint_name (checkpoint s) =
    py_or checkpoint_arg (index_config s !! "checkpoint") /\
  config s !! "checkpoint" = checkpoint_name (checkpoint s) /\
  config s !! "collection" = collection s /\
  load_from_index (index s) = inr (index_config s) /\
  load_from_checkpoint (checkpoint_name (checkpoint s)) =
    inr (checkpoint_config s).
Proof.
  intros Hs.
  apply __init___returns in Hs
    as (idx & ckpt & use_gpu & r & Hidx & Hckpt & _ & _ & ->).
  simpl. unfold resolved_config.
  rewrite Config_configure_first by done. rewrite Config_configure_second.
  by destruct use_gpu.
Qed.

(** X16.  The index of a Searcher is the [index] argument joined to the
    [index_root] argument when that is a string that is not empty, and
    to the index root of the caller's configuration over the process
    defaults when it is [None] or the empty string. *)
Theorem constructed_index_path s :
  init = inr s ->
  let default_root :=
    index_root_ (from_existing [caller_config conf_arg; Some run_config]) in
  (forall root, index_root_arg = Some root -> root <> "" ->
                index s = path_join root index_arg) /\
  (index_root_arg = None \/ index_root_arg = Some "" ->
   index s = path_join default_root index_arg).
Proof.
  intros Hs default_root.
  apply __init___returns in Hs
    as (idx & ckpt & use_gpu & r & _ & _ & _ & _ & ->).
  simpl. unfold index_path. fold default_root. split.
  - intros root -> Hroot.
    destruct (String.eqb_spec root ""); [done|]. done.
  - by intros [-> | ->].
Qed.

(** X17.  When the configuration of the index, or that of the
    checkpoint, does not load, the constructor raises the loader's
    error: before the memory-map check, and whatever engine was
    requested. *)
Theorem construction_needs_configurations :
  (forall e,
     load_from_index
       (index_path run_config index_root_ path_join index_arg conf_arg
          index_root_arg) = inl e ->
     init = inl e) /\
  (forall idx e,
     load_from_index
       (index_path run_config index_root_ path_join index_arg conf_arg
          index_root_arg) = inr idx ->
     load_from_checkpoint (py_or checkpoint_arg (idx !! "checkpoint")) =
       inl e ->
     init = inl e).
Proof.
  split.
  - intros e Hidx. unfold __init__. fold (caller_config conf_arg).
    change (path_join _ index_arg) with
      (index_path run_config index_root_ path_join index_arg conf_arg
         index_root_arg).
    by rewrite Hidx.
  - intros idx e Hidx Hckpt. unfold __init__. fold (caller_config conf_arg).
    change (path_join _ index_arg) with
      (index_path run_config index_root_ path_join index_arg conf_arg
         index_root_arg).
    rewrite Hidx. cbn [bind_exn]. by rewrite Hckpt.
Qed.

End Constructed.

(** ** The theorems on the bench *)

(** C3.  The claim is that the three sequences [dense_search] returns
    have equal length, at most [k], and are never padded.  With [k = 5]
    and a backend that finds two documents, the ids and the scores have
    two entries and the ranks have five. *)
Theorem dense_search_ranks_overrun :
  (dense_search Bench.rank_two [tt] 5 None None Bench.world).2 =
    inr ([10; 20], [1; 2; 3; 4; 5], [0.9%Q; 0.8%Q]) /\
  Bench.rank_two (ranker Bench.searcher)
    (config (self (dense_search Bench.rank_two [tt] 5 None None
                     Bench.world).1)) [tt] None None None =
    inr ([10; 20], [0.9%Q; 0.8%Q]) /\
  length [10; 20] <> length [1; 2; 3; 4; 5].
Proof. repeat split. simpl. lia. Qed.

(** The bench Searcher has no breadth option set; a call with k=500 on it
    takes the third bucket. *)
Lemma adaptive_bucket_values_witness :
  breadth (config (self Bench.world)) = (None, None, None) /\
  exists cfg' : Configuration,
    dense_search Bench.rank_two [tt] 500 None None Bench.world =
      ({| self := with_config cfg' (self Bench.world);
          bar := bar Bench.world |},
       rank_and_trim Bench.rank_two (self Bench.world) cfg' [tt] 500
         None None) /\
    (500 <= 10 ->
     breadth cfg' = (Some (VInt 1), Some (VFloat 0.5), Some (VInt 256))) /\
    (10 < 500 <= 100 ->
     breadth cfg' = (Some (VInt 2), Some (VFloat 0.45), Some (VInt 1024))) /\
    (100 < 500 ->
     breadth cfg' =
       (Some (VInt 4), Some (VFloat 0.4),
        Some (VInt (Z.max (4 * 500) 4096)))) /\
    (forall name,
       name <> "ncells" -> name <> "centroid_score_threshold" ->
       name <> "ndocs" -> cfg' !! name = config (self Bench.world) !! name).
Proof.
  split; [reflexivity|].
  apply (adaptive_bucket_values Bench.rank_two [tt] 500 None None Bench.world).
  reflexivity.
Defined.

(** The two calls of the claim on the bench Searcher. *)
Lemma sticky_adaptive_defaults_witness :
  breadth (config (self Bench.world)) = (None, None, None) /\
  exists cfg' : Configuration,
    breadth cfg' = (Some (VInt 1), Some (VFloat 0.5), Some (VInt 256)) /\
    config (self (dense_search Bench.rank_two [tt] 500 None None
                    (dense_search Bench.rank_two [tt] 5 None None
                       Bench.world).1).1) = cfg'.
Proof.
  split; [reflexivity|].
  destruct (sticky_adaptive_defaults Bench.rank_two [tt] [tt] None None
              None None Bench.world eq_refl)
    as [(cfg' & Hb & _ & _ & H2 & _) _].
  exists cfg'. split; [exact Hb | exact H2].
Defined.

(** An option set by hand survives a call of every bucket. *)
Lemma explicit_values_survive_witness :
  config (self (configure [("ndocs", Some (VInt 2000))] Bench.world).1)
    !! "ndocs" = Some (VInt 2000) /\
  config (self (dense_search_calls Bench.rank_two
                  [([tt], 5, None, None); ([tt], 50, None, None);
                   ([tt], 500, None, None)]
                  (configure [("ndocs", Some (VInt 2000))] Bench.world).1))
    !! "ndocs" = Some (VInt 2000).
Proof.
  split; [reflexivity|].
  destruct (@explicit_values_survive unit Bench.rank_two) as (_ & H & _).
  apply H. reflexivity.
Defined.


(** C2.  The claim is that construction succeeds for every combination
    but GPU with memory-map.  On the CPU, without memory-map, with one
    thread, the advanced engine requested and no [config] given, the
    configurations load and construction fails, reading [t_prime] from
    [None]. *)
Lemma construction_fails_on_cpu :
  let resolved :=
    resolved_config Bench.cpu Bench.Collection_cast None None None ∅ ∅ in
  gt0 (resolved !! "total_visible_gpus") = inr false /\
  truthy (resolved !! "load_index_with_mmap") = false /\
  Bench.init Bench.cpu 1 None true =
    inl (AttributeError "'NoneType' object has no attribute 't_prime'") /\
  ~ exists s, Bench.init Bench.cpu 1 None true = inr s.
Proof.
  repeat split. intros [s Hs]. vm_compute in Hs. discriminate Hs.
Qed.

(** C10.  The claim is that construction with the advanced engine and no
    [WARPRunConfig] fails with an attribute error and not with the error
    of the memory-map check.  When the process defaults ask for a GPU and
    for a memory-mapped index, it is the memory-map check that fails. *)
Lemma construction_fails_on_mmap_first :
  warp_config_of None = None /\
  Bench.init Bench.gpu_mmap 1 None true =
    inl (ValueError "Memory-mapped index can only be used with CPU!") /\
  Bench.init Bench.gpu_mmap 1 None true <>
    inl (AttributeError "'NoneType' object has no attribute 't_prime'").
Proof. repeat split. vm_compute. discriminate. Qed.

(** On the CPU the bench constructor builds the advanced engine from a
    [WARPRunConfig]. *)
Lemma construction_outcome_witness :
  Bench.load_from_index "indexes/nfcorpus" = inr ∅ /\
  Bench.load_from_checkpoint None = inr ∅ /\
  exists s,
    Bench.init Bench.cpu 4 (Some (WarpConfig Bench.warp)) true = inr s /\
    config s = Bench.cpu.
Proof.
  split; [reflexivity|]. split; [reflexivity|].
  destruct (construction_outcome Bench.cpu Bench.index_root_ Bench.path_join
              Bench.load_from_index Bench.load_from_checkpoint
              Bench.Collection_cast 4 "nfcorpus" None None
              (Some (WarpConfig Bench.warp)) None 3 ∅ ∅ eq_refl eq_refl
              false eq_refl true) as (_ & _ & Hbuilds).
  destruct Hbuilds as (s & Hs & Hcfg); [reflexivity|by eexists|].
  exists s. split; [exact Hs|]. rewrite Hcfg. by vm_compute.
Defined.

(** On the CPU, with the advanced engine requested and a plain
    configuration, the bench constructor fails on [t_prime]. *)
Lemma warp_engine_needs_warp_config_witness :
  Bench.load_from_index "indexes/nfcorpus" = inr ∅ /\
  Bench.load_from_checkpoint None = inr ∅ /\
  Bench.init Bench.cpu 1 (Some (PlainConfig ∅)) true =
    inl (AttributeError "'NoneType' object has no attribute 't_prime'").
Proof.
  split; [reflexivity|]. split; [reflexivity|].
  apply (warp_engine_needs_warp_config Bench.cpu Bench.index_root_
           Bench.path_join Bench.load_from_index Bench.load_from_checkpoint
           Bench.Collection_cast 1 "nfcorpus" None None
           (Some (PlainConfig ∅)) None 3 ∅ ∅ eq_refl eq_refl false).
  - vm_compute. reflexivity.
  - intros w. discriminate.
  - vm_compute. reflexivity.
Defined.

(** C6.  The claim is that an option set in the caller's configuration
    appears unchanged in the effective configuration, for every option
    and whatever the checkpoint's and the index's configuration hold.
    The caller sets ndocs to 2000 and the checkpoint's configuration sets
    it to 7: the Searcher is built with 7.  The caller alone sets the
    option checkpoint, to "mine", and the constructor is given the
    checkpoint "colbertv2.0": the Searcher is built with the latter. *)
Lemma caller_config_is_overridden :
  match
    __init__ Bench.cpu Bench.index_root_ Bench.path_join
      Bench.load_from_index Bench.checkpoint_with_ndocs
      Bench.Collection_cast 1 "nfcorpus" None None
      (Some (PlainConfig {[ "ndocs" := VInt 2000 ]})) None 3 false
  with
  | inr s =>
      config s !! "ndocs" = Some (VInt 7) /\
      config s !! "ndocs" <> Some (VInt 2000)
  | inl _ => False
  end /\
  match
    __init__ Bench.cpu Bench.index_root_ Bench.path_join
      Bench.load_from_index Bench.load_from_checkpoint
      Bench.Collection_cast 1 "nfcorpus" (Some (VStr "colbertv2.0")) None
      (Some (PlainConfig {[ "checkpoint" := VStr "mine" ]})) None 3 false
  with
  | inr s =>
      config s !! "checkpoint" = Some (VStr "colbertv2.0") /\
      config s !! "checkpoint" <> Some (VStr "mine")
  | inl _ => False
  end.
Proof. vm_compute. repeat split; discriminate. Qed.

(** The caller sets ndocs to 2000 and the process defaults set it to 5:
    the Searcher is built with 2000. *)
Lemma configuration_precedence_witness :
  Bench.load_from_index "indexes/nfcorpus" = inr ∅ /\
  Bench.load_from_checkpoint None = inr ∅ /\
  match
    Bench.init (<["ndocs" := VInt 5]> Bench.cpu) 1
      (Some (PlainConfig {[ "ndocs" := VInt 2000 ]})) false
  with
  | inr s => config s !! "ndocs" = Some (VInt 2000)
  | inl _ => False
  end.
Proof.
  split; [reflexivity|]. split; [reflexivity|].
  destruct (configuration_precedence (<["ndocs" := VInt 5]> Bench.cpu)
              Bench.index_root_ Bench.path_join Bench.load_from_index
              Bench.load_from_checkpoint Bench.Collection_cast 1 "nfcorpus"
              None None (Some (PlainConfig {[ "ndocs" := VInt 2000 ]}))
              None 3 ∅ ∅ eq_refl eq_refl) as [_ Hbuilt].
  destruct (Bench.init _ _ _ _) as [e|s] eqn:Hinit.
  - vm_compute in Hinit. discriminate Hinit.
  - destruct (Hbuilt false s Hinit) as [_ Hprec].
    apply (Hprec {[ "ndocs" := VInt 2000 ]}); [done|done|reflexivity..].
Defined.

(** With four threads the bench constructor builds the multi-worker
    backend, with the tuning of the [WARPRunConfig]. *)
Lemma engine_selection_witness :
  Bench.load_from_index "indexes/nfcorpus" = inr ∅ /\
  Bench.load_from_checkpoint None = inr ∅ /\
  exists s,
    Bench.init Bench.cpu 4 (Some (WarpConfig Bench.warp)) true = inr s /\
    ranker s =
      ParallelIndexScorerWARP "indexes/nfcorpus" ref_self_config false None
        None (Some (VInt 128)) (Some (VBool true)).
Proof.
  split; [reflexivity|]. split; [reflexivity|].
  destruct (engine_selection Bench.cast Bench.encoder Bench.rank_two
              Bench.cpu Bench.index_root_ Bench.path_join
              Bench.load_from_index Bench.load_from_checkpoint
              Bench.Collection_cast 4 "nfcorpus" None None
              (Some (WarpConfig Bench.warp)) None 3 ∅ ∅ eq_refl eq_refl
              false eq_refl) as (Hshape & Hreturns & _).
  destruct (Hreturns eq_refl) as [_ Hwarp].
  destruct (Hwarp Bench.warp eq_refl) as [s Hs].
  exists s. split; [exact Hs|].
  destruct (Hshape true s Hs) as (_ & _ & Hparallel & _).
  destruct (Hparallel eq_refl) as (w & Hw & Hranker); [lia|].
  injection Hw as <-. exact Hranker.
Defined.

(** The batch of the specification's example, with k = 3. *)
Lemma search_all_ranking_witness :
  NoDup (dict_keys (Queries_data (Bench.cast (QQueries Bench.cats_dogs)))) /\
  exists w' ranking,
    search_all Bench.cast Bench.encoder Bench.rank_two
      (QQueries Bench.cats_dogs) 3 None false None true Bench.world =
      (w', inr ranking) /\
    dict_keys (Ranking_data ranking) = [VStr "a"; VStr "b"] /\
    provenance_k (Ranking_provenance ranking) = 3 /\
    provenance_queries (Ranking_provenance ranking) =
      Some (VStr "queries.tsv").
Proof.
  assert (Hkeys : NoDup (dict_keys (Queries_data
                           (Bench.cast (QQueries Bench.cats_dogs))))).
  { apply (bool_decide_unpack _). vm_compute. exact I. }
  split; [exact Hkeys|].
  destruct (search_all_ranking Bench.cast Bench.encoder Bench.rank_two
              (QQueries Bench.cats_dogs) 3 None false None true
              Bench.world Hkeys) as [Hranking Hreturns].
  destruct Hreturns as (w' & ranking & Hrun).
  - intros. eexists. reflexivity.
  - intros. eexists. reflexivity.
  - intros d Hd. discriminate Hd.
  - exists w', ranking. split; [exact Hrun|].
    destruct (Hranking w' ranking Hrun) as (Hk & Hpk & Hpq & _).
    split; [exact Hk|]. split; [exact Hpk | exact Hpq].
Defined.

(** The two runs of C9 on the bench differ in the counter of the
    progress bar, and in nothing else. *)
Example progress_bar_differs :
  let shown :=
    search_all Bench.cast Bench.encoder Bench.rank_two
      (QQueries Bench.cats_dogs) 3 None false None true Bench.world in
  let silent :=
    search_all Bench.cast Bench.encoder Bench.rank_two
      (QQueries Bench.cats_dogs) 3 None false None false Bench.world in
  bar shown.1 = [1; 2]%nat /\ bar silent.1 = [] /\ shown.2 = silent.2.
Proof. by vm_compute. Qed.

(** 129 queries go to the encoder in batches of 128. *)
Lemma encode_batches_witness :
  (128 < length (replicate 129 "q"))%nat /\
  (encode Bench.encoder (StrList (replicate 129 "q")) false Bench.world).2 =
  Bench.encoder
    (with_query_maxlen (config (self Bench.world) !! "query_maxlen")
       (checkpoint (self Bench.world)))
    (replicate 129 "q") (Some 128) true false.
Proof.
  split; [vm_compute; lia|].
  destruct (@encode_batches unit Bench.encoder) as (_ & _ & Hmany & _).
  apply Hmany. vm_compute. lia.
Defined.

(** With the encoder down, a search on the bench fails and fills
    nothing. *)
Lemma search_encoder_failure_witness :
  (search Bench.encoder_down Bench.rank_two "cats" 5 None false None
     Bench.world).2 = inl (EncodingError "encoder is down") /\
  config (self (search Bench.encoder_down Bench.rank_two "cats" 5 None
                  false None Bench.world).1) = ∅.
Proof.
  apply (search_encoder_failure Bench.encoder_down Bench.rank_two "cats" 5
           None false None Bench.world (EncodingError "encoder is down")).
  reflexivity.
Defined.

(** Three of the five documents the bench backend finds. *)
Lemma dense_search_first_k_witness :
  0 <= 3 /\
  exists ids' ranks scores',
    (dense_search Bench.rank_five [tt] 3 None None Bench.world).2 =
      inr (ids', ranks, scores') /\
    ids' = [11; 12; 13] /\ length ranks = 3%nat /\ length scores' = 3%nat.
Proof.
  split; [lia|].
  destruct (dense_search_first_k Bench.rank_five [tt] 3 None None
              Bench.world [11; 12; 13; 14; 15]
              [0.9%Q; 0.8%Q; 0.7%Q; 0.6%Q; 0.5%Q])
    as (ids' & ranks & scores' & Hrun & Hids & _ & Hranks & _ & Hfull);
    [lia | reflexivity |].
  exists ids', ranks, scores'. split; [exact Hrun|].
  split; [exact Hids|]. split; [exact Hranks|].
  apply Hfull; simpl; lia.
Defined.

(** With k = -2 the bench backend's five documents lose their last
    two, and have no ranks. *)
Lemma dense_search_nonpositive_k_witness :
  -2 < 0 /\
  (dense_search Bench.rank_five [tt] (-2) None None Bench.world).2 =
    inr ([11; 12; 13], [], [0.9%Q; 0.8%Q; 0.7%Q]).
Proof.
  split; [lia|].
  destruct (dense_search_nonpositive_k Bench.rank_five [tt] (-2) None None
              Bench.world [11; 12; 13; 14; 15]
              [0.9%Q; 0.8%Q; 0.7%Q; 0.6%Q; 0.5%Q] eq_refl) as [_ Hneg].
  apply Hneg. lia.
Defined.

(** On the tuned bench Searcher, the result for k = 1 is the first entry
    of the result for k = 2. *)
Lemma baseline_results_are_prefixes_witness :
  warp_engine (self Bench.tuned) = false /\
  0 <= 1 <= 2 /\
  (dense_search Bench.rank_two [tt] 1 None None Bench.tuned).2 =
    inr ([10], [1], [0.9%Q]).
Proof.
  split; [reflexivity|]. split; [lia|].
  apply (baseline_results_are_prefixes Bench.rank_two [tt] 1 2 None None
           Bench.tuned [10; 20] [1; 2] [0.9%Q; 0.8%Q]).
  - reflexivity.
  - by eexists.
  - by eexists.
  - by eexists.
  - lia.
  - reflexivity.
Defined.

(** The empty list of queries is an empty batch for the bench cast. *)
Lemma search_all_empty_batch_witness :
  Queries_data (Bench.cast (QList [])) = [] /\
  (search_all Bench.cast Bench.encoder Bench.rank_two (QList []) 5 None
     false None true Bench.world).2 =
    inr {| Ranking_data := [];
           Ranking_provenance :=
             provenance_of (Bench.cast (QList [])) ∅ 5 |}.
Proof.
  split; [reflexivity|].
  destruct (search_all_empty_batch Bench.cast Bench.encoder Bench.rank_two
              (QList []) 5 None false None true Bench.world eq_refl)
    as [_ Hrun].
  exact Hrun.
Defined.

(** Pools that know query "a" only: the batch of "a" and "b" raises
    [KeyError]. *)
Lemma search_all_missing_pool_witness :
  plain_key (VStr "b") = true /\
  forallb plain_key (dict_keys Bench.pools_a) = true /\
  VStr "b" ∈ dict_keys (Queries_data (Bench.cast (QQueries Bench.cats_dogs)))
  /\
  dict_get (VStr "b") Bench.pools_a = None /\
  (search_all Bench.cast Bench.encoder Bench.rank_two
     (QQueries Bench.cats_dogs) 5 None false (Some Bench.pools_a) true
     Bench.world).2 = inl KeyError.
Proof.
  assert (Hb : VStr "b" ∈ dict_keys (Queries_data
                              (Bench.cast (QQueries Bench.cats_dogs))))
    by (right; left).
  split; [reflexivity|]. split; [reflexivity|].
  split; [exact Hb|]. split; [reflexivity|].
  apply (search_all_missing_pool Bench.cast Bench.encoder Bench.rank_two
           (QQueries Bench.cats_dogs) 5 None false Bench.pools_a true
           Bench.world (VStr "b") eq_refl eq_refl Hb eq_refl).
  - intros. eexists. reflexivity.
  - intros. eexists. reflexivity.
Defined.

(** The backend ranks "cats" and cannot rank "dogs", the second query
    of the batch: the batch returns nothing. *)
Lemma search_all_backend_failure_witness :
  dict_keys (Queries_data (Bench.cast (QQueries Bench.cats_dogs))) !! 1%nat =
    Some (VStr "b") /\
  Bench.rank_no_dogs (ranker Bench.searcher)
    (adaptive_fill 5 (config Bench.searcher)) ["cats"] None None None =
    inr ([10; 20], [0.9%Q; 0.8%Q]) /\
  exists e,
    (search_all Bench.cast Bench.encoder_texts Bench.rank_no_dogs
       (QQueries Bench.cats_dogs) 5 None false None true Bench.world).2 =
    inl e.
Proof.
  split; [reflexivity|]. split; [reflexivity|].
  apply (search_all_backend_failure Bench.cast Bench.encoder_texts
           Bench.rank_no_dogs (QQueries Bench.cats_dogs) 5 None false None
           true Bench.world 1 (VStr "b") eq_refl).
  intros Q HQ pids. injection HQ as <-. eexists. reflexivity.
Defined.

(** The rows of the bench batch with k = 3: two documents are found, so
    two rows each, ranked 1 and 2. *)
Lemma search_all_rows_witness :
  0 <= 3 /\
  match
    search_all Bench.cast Bench.encoder Bench.rank_two
      (QQueries Bench.cats_dogs) 3 None false None true Bench.world
  with
  | (_, inr ranking) =>
      forall qid rows,
        (qid, rows) ∈ Ranking_data ranking ->
        (length rows <= 3)%nat /\
        (fun r : row => r.1.2) <$> rows = Z.of_nat <$> seq 1 (length rows)
  | (_, inl _) => False
  end.
Proof.
  split; [lia|].
  destruct (search_all _ _ _ _ _ _ _ _ _ _) as [w' [e|ranking]] eqn:Hrun.
  - vm_compute in Hrun. discriminate Hrun.
  - intros qid rows Hin.
    destruct (search_all_rows Bench.cast Bench.encoder Bench.rank_two
                (QQueries Bench.cats_dogs) 3 None false None true
                Bench.world w' ranking ltac:(lia) Hrun qid rows Hin)
      as (_ & Hlen & Hranks).
    split; [exact Hlen | exact Hranks].
Defined.

(** The Provenance of the bench batch with k = 3 holds the first
    bucket. *)
Lemma search_all_provenance_config_witness :
  Queries_data (Bench.cast (QQueries Bench.cats_dogs)) <> [] /\
  match
    search_all Bench.cast Bench.encoder Bench.rank_two
      (QQueries Bench.cats_dogs) 3 None false None true Bench.world
  with
  | (_, inr ranking) =>
      provenance_config (Ranking_provenance ranking) !! "ndocs" =
      Some (VInt 256)
  | (_, inl _) => False
  end.
Proof.
  assert (Hbatch : Queries_data (Bench.cast (QQueries Bench.cats_dogs)) <> [])
    by discriminate.
  split; [exact Hbatch|].
  destruct (search_all _ _ _ _ _ _ _ _ _ _) as [w' [e|ranking]] eqn:Hrun.
  - vm_compute in Hrun. discriminate Hrun.
  - destruct (search_all_provenance_config Bench.cast Bench.encoder
                Bench.rank_two (QQueries Bench.cats_dogs) 3 None false None
                true Bench.world w' ranking Hbatch Hrun) as [Hprov _].
    rewrite Hprov. reflexivity.
Defined.

(** The batch of the one query "cats" against the search of "cats". *)
Lemma search_all_of_one_is_search_witness :
  Queries_data (Bench.cast (QDict [(7, "cats")])) = [(VInt 7, "cats")] /\
  (search_all Bench.cast Bench.encoder Bench.rank_two (QDict [(7, "cats")])
     3 None false None true Bench.world).2 =
    inr {| Ranking_data := [(VInt 7, [(10, 1, 0.9%Q); (20, 2, 0.8%Q)])];
           Ranking_provenance :=
             provenance_of (Bench.cast (QDict [(7, "cats")]))
               (config (self (search Bench.encoder Bench.rank_two "cats" 3
                                None false None Bench.world).1)) 3 |}.
Proof.
  split; [reflexivity|].
  destruct (search_all_of_one_is_search Bench.cast Bench.encoder
              Bench.rank_two (QDict [(7, "cats")]) 3 None false true
              Bench.world (VInt 7) "cats" tt eq_refl eq_refl) as [_ Hrun].
  exact Hrun.
Defined.


(** The index's configuration names a checkpoint and the caller gives
    none: the Searcher takes the index's. *)
Lemma constructed_records_witness :
  match
    __init__ Bench.cpu Bench.index_root_ Bench.path_join
      (fun _ => inr {[ "checkpoint" := VStr "colbertv2.0" ]})
      Bench.load_from_checkpoint Bench.Collection_cast 1 "nfcorpus" None
      None (Some (PlainConfig {[ "checkpoint" := VStr "mine" ]})) None 3
      false
  with
  | inr s =>
      checkpoint_name (checkpoint s) = Some (VStr "colbertv2.0") /\
      config s !! "checkpoint" = Some (VStr "colbertv2.0")
  | inl _ => False
  end.
Proof.
  destruct (__init__ _ _ _ _ _ _ _ _ _ _ _ _ _ _) as [e|s] eqn:Hinit.
  - vm_compute in Hinit. discriminate Hinit.
  - destruct (constructed_records Bench.cpu Bench.index_root_
                Bench.path_join
                (fun _ => inr {[ "checkpoint" := VStr "colbertv2.0" ]})
                Bench.load_from_checkpoint Bench.Collection_cast 1
                "nfcorpus" None None
                (Some (PlainConfig {[ "checkpoint" := VStr "mine" ]})) None
                3 false s Hinit) as (Hname & Hoption & _ & Hidx & _).
    assert (index_config s = {[ "checkpoint" := VStr "colbertv2.0" ]})
      as Hloaded by (by injection Hidx).
    rewrite Hloaded in Hname. rewrite Hoption, Hname. by split.
Defined.

(** An empty [index_root] is no root: the bench Searcher's index is
    under the default root. *)
Lemma constructed_index_path_witness :
  match
    __init__ Bench.cpu Bench.index_root_ Bench.path_join
      Bench.load_from_index Bench.load_from_checkpoint Bench.Collection_cast
      1 "nfcorpus" None None None (Some "") 3 false
  with
  | inr s => index s = "indexes/nfcorpus"
  | inl _ => False
  end.
Proof.
  destruct (__init__ _ _ _ _ _ _ _ _ _ _ _ _ _ _) as [e|s] eqn:Hinit.
  - vm_compute in Hinit. discriminate Hinit.
  - destruct (constructed_index_path Bench.cpu Bench.index_root_
                Bench.path_join Bench.load_from_index
                Bench.load_from_checkpoint Bench.Collection_cast 1
                "nfcorpus" None None None (Some "") 3 false s Hinit)
      as [_ Hdefault].
    rewrite Hdefault; [reflexivity | by right].
Defined.

(** Without an index the bench constructor raises the loader's error,
    also when a GPU and a memory-mapped index are asked for. *)
Lemma construction_needs_configurations_witness :
  Bench.index_missing "indexes/nfcorpus" = inl (ConfigLoadError "no index")
  /\
  __init__ Bench.gpu_mmap Bench.index_root_ Bench.path_join
    Bench.index_missing Bench.load_from_checkpoint Bench.Collection_cast 1
    "nfcorpus" None None None None 3 true =
  inl (ConfigLoadError "no index").
Proof.
  split; [reflexivity|].
  destruct (construction_needs_configurations Bench.gpu_mmap
              Bench.index_root_ Bench.path_join Bench.index_missing
              Bench.load_from_checkpoint Bench.Collection_cast 1 "nfcorpus"
              None None None None 3 true) as [Hindex _].
  apply Hindex. reflexivity.
Defined.
